(** * Knowledge Graph Visualizer API (kg-frontend/src/server.py)

    A shallow embedding of the FastAPI server that fronts the Neo4j store
    and the builder / enricher launch scripts, and the properties of its
    request handlers.

    The program is Python: handlers either return a value or raise an
    exception, and they act on two pieces of outside state, the graph
    store (through [session.run]) and the host's processes (through
    [subprocess.run]).  Both are modelled by explicit state passing in
    an exception monad. *)

From Stdlib Require Import Ascii.
From stdpp Require Import gmap strings list fin_maps pretty.

Local Open Scope Z_scope.

(** ** Python values and exceptions *)

(** The scalars that travel between the store, the handlers and the
    JSON responses. *)
Inductive value :=
| VNone
| VInt (z : Z)
| VStr (s : string).

Global Instance value_eq_dec : EqDecision value.
Proof. solve_decision. Defined.

(** [str(v)].  [pretty] on [Z] prints the decimal digits, with a leading
    minus sign for negative numbers, as Python's [str(int)] does. *)
Definition py_str (v : value) : string :=
  match v with
  | VNone => "None"
  | VInt z => pretty z
  | VStr s => s
  end.

(** The exceptions the handlers see.  All of them derive from Python's
    [Exception], so [except Exception] catches every one of them.
    [Exception message] stands for any other exception class (driver
    errors, [OSError], [ValueError], [KeyError], [TypeError]) and carries
    its [str(e)]. *)
Inductive exn :=
| HTTPException (status_code : Z) (detail : string)
| CalledProcessError (cmd : list string) (returncode : Z) (output stderr : string)
| Exception (message : string).

Inductive result (A : Type) :=
| Return (a : A)
| Raise (e : exn).
Global Arguments Return {A} a.
Global Arguments Raise {A} e.

(** A computation over outside state [S]: it ends by returning or by
    raising, and the state changes it made before raising stay. *)
Definition M (S A : Type) : Type := S → result A * S.

Global Instance M_ret {S} : MRet (M S) := λ A a s, (Return a, s).
Global Instance M_bind {S} : MBind (M S) := λ A B k m s,
  match m s with
  | (Return a, s') => k a s'
  | (Raise e, s') => (Raise e, s')
  end.

Definition raise {S A} (e : exn) : M S A := λ s, (Raise e, s).

(** [try: body / except <classes> as e: handler e].  [catches] tells
    which exceptions the [except] clause names. *)
Definition try_except {S A} (body : M S A) (catches : exn → bool)
    (handler : exn → M S A) : M S A := λ s,
  match body s with
  | (Raise e, s') => if catches e then handler e s' else (Raise e, s')
  | r => r
  end.

Definition is_Exception (e : exn) : bool := true.

Definition is_CalledProcessError (e : exn) : bool :=
  match e with CalledProcessError _ _ _ _ => true | _ => false end.

(** A list comprehension whose element expression may raise. *)
Fixpoint for_each {S A B} (f : A → M S B) (l : list A) : M S (list B) :=
  match l with
  | [] => mret []
  | x :: l' => y ← f x; ys ← for_each f l'; mret (y :: ys)
  end.

(** ** Strings *)

(** [sub in s] on Python strings; Cypher's [CONTAINS] is the same
    case-sensitive test. *)
Fixpoint is_substring (sub s : string) : bool :=
  String.prefix sub s ||
  match s with
  | "" => false
  | String _ s' => is_substring sub s'
  end.

(** What containment means: [sub] occurs between some prefix and some
    suffix. *)
Definition contains (s sub : string) : Prop :=
  ∃ pre post, s = pre +:+ sub +:+ post.

(** [template.format(arg)] for a template with replacement fields
    written [{}]: the first field is replaced by the argument as it is.
    (The templates of this program hold one field and no other brace.) *)
Fixpoint py_format (template arg : string) : string :=
  match template with
  | "" => ""
  | String "{"%char (String "}"%char rest) => arg +:+ rest
  | String c rest => String c (py_format rest arg)
  end.

(** *** [int(s)] *)

(** The ASCII characters [int] strips from both ends of its text:
    tab, line feed, vertical tab, form feed, carriage return and
    space. *)
Definition py_isspace (c : ascii) : bool :=
  match c with
  | "009" | "010" | "011" | "012" | "013" | " " => true
  | _ => false
  end%char.

Fixpoint lstrip (s : string) : string :=
  match s with
  | "" => ""
  | String c s' => if py_isspace c then lstrip s' else s
  end.

Fixpoint rstrip (s : string) : string :=
  match s with
  | "" => ""
  | String c s' =>
      match rstrip s' with
      | "" => if py_isspace c then "" else String c ""
      | r => String c r
      end
  end.

(** No character of the string is one that [int] strips. *)
Fixpoint no_space (s : string) : bool :=
  match s with
  | "" => true
  | String c s' => negb (py_isspace c) && no_space s'
  end.

Definition digit_of (c : ascii) : option Z :=
  Z.of_nat <$> Ascii.is_nat c.

(** The digits of a decimal literal; a single underscore may stand
    between two digits. *)
Inductive lit_state := AtStart | AfterDigit | AfterUnderscore.

Fixpoint int_digits (st : lit_state) (acc : Z) (s : string) : option Z :=
  match s with
  | "" => match st with AfterDigit => Some acc | _ => None end
  | String c s' =>
      match digit_of c with
      | Some d => int_digits AfterDigit (10 * acc + d) s'
      | None =>
          if Ascii.eqb c "_"%char then
            match st with
            | AfterDigit => int_digits AfterUnderscore acc s'
            | _ => None
            end
          else None
      end
  end.

(** The reader of [int(s)] in base 10 on ASCII text: surrounding
    whitespace is dropped, one sign is allowed, and the rest must be a
    decimal literal.  [None] is the [ValueError].  What [int] does with
    text beyond ASCII and with texts of very many digits is not the
    reader's business: see [interp_int], which the handlers call. *)
Definition py_int (s : string) : option Z :=
  match rstrip (lstrip s) with
  | String "-"%char r => Z.opp <$> int_digits AtStart 0 r
  | String "+"%char r => int_digits AtStart 0 r
  | t => int_digits AtStart 0 t
  end.

(** Every character of the text is an ASCII character. *)
Definition is_ascii_char (c : ascii) : bool :=
  match c with Ascii _ _ _ _ _ _ _ high => negb high end.

Fixpoint is_ascii (s : string) : bool :=
  match s with
  | "" => true
  | String c s' => is_ascii_char c && is_ascii s'
  end.

(** The number of digits in the text, which [int] holds against the
    interpreter's limit: leading zeros count, underscores, sign and
    whitespace do not. *)
Fixpoint count_digits (s : string) : nat :=
  match s with
  | "" => O
  | String c s' =>
      match digit_of c with
      | Some _ => S (count_digits s')
      | None => count_digits s'
      end
  end.

(** [repr(key)] of a column name.  The names this program asks for
    ("id", "name", "source", "target", "type", "count") hold no quote
    and nothing to escape, so it is the name between single quotes. *)
Definition py_repr (s : string) : string := "'" +:+ s +:+ "'".

(** ** The graph store *)

(** A node of the property graph: its labels and its [name] property
    ([VNone] when the property is absent).  The store assigns every
    node its own integer id, so nodes are a finite map from ids. *)
Record node := { labels : list string; name : value }.

(** A directed edge with its type label.  The store keeps parallel
    edges apart, so edges are a list. *)
Record rel := { rel_source : Z; rel_target : Z; rel_type : string }.

Record Graph := { nodes : gmap Z node; rels : list rel }.

Definition is_concept (n : node) : Prop := "Concept" ∈ labels n.

Global Instance is_concept_dec n : Decision (is_concept n).
Proof. unfold is_concept. apply _. Defined.

(** [MATCH (n:Concept)]: the nodes that carry the label, with their ids. *)
Definition concepts (g : Graph) : list (Z * node) :=
  filter (λ p, is_concept p.2) (map_to_list (nodes g)).

Definition concept_at (g : Graph) (i : Z) : bool :=
  match nodes g !! i with
  | Some n => bool_decide (is_concept n)
  | None => false
  end.

(** [MATCH (a:Concept)-[r]->(b:Concept)]: the edges whose two ends
    both carry the label. *)
Definition concept_links (g : Graph) : list rel :=
  filter (λ r, concept_at g (rel_source r) && concept_at g (rel_target r)) (rels g).

(** A row of a query result (neo4j's [Record]): the column aliases in
    order, each with its value. *)
Abbreviation record := (list (string * value)).

(** [record[key]]. *)
Definition record_get {S} (r : record) (key : string) : M S value :=
  match list_find (λ kv, kv.1 = key) r with
  | Some (_, (_, v)) => mret v
  | None => raise (Exception (py_repr key))
  end.

(** [result.single()]: no row gives [None], otherwise the first row. *)
Definition single (rows : list record) : option record := head rows.

(** [n.name CONTAINS $query]: true only for a string that holds the
    query; a missing or non-string name gives null and the row is
    dropped. *)
Definition name_contains (q : string) (v : value) : bool :=
  match v with
  | VStr s => is_substring q s
  | _ => false
  end.

(** The statements this server sends, word for word. *)
Definition NODES_QUERY : string := "
                MATCH (n:Concept)
                RETURN id(n) AS id, n.name AS name
            ".

Definition LINKS_QUERY : string := "
                MATCH (a:Concept)-[r]->(b:Concept)
                RETURN id(a) AS source, id(b) AS target, type(r) AS type
            ".

Definition SEARCH_QUERY : string := "
                MATCH (n:Concept)
                WHERE n.name CONTAINS $query
                RETURN id(n) AS id, n.name AS name
                LIMIT 10
            ".

Definition CREATE_TEMPLATE : string := "
                MATCH (a:Concept), (b:Concept)
                WHERE id(a) = $source AND id(b) = $target
                CREATE (a)-[r:`{}`]->(b)
                RETURN id(a) AS source, id(b) AS target, type(r) AS type
            ".

Definition CONCEPT_COUNT_QUERY : string := "
                MATCH (n:Concept)
                RETURN count(n) AS count
            ".

Definition RELATIONSHIP_COUNT_QUERY : string := "
                MATCH ()-[r]->()
                RETURN count(r) AS count
            ".

(** The text of [CREATE_TEMPLATE] before the replacement field, up to
    and including the backquote that opens the edge type, and the text
    after it, from the closing backquote on. *)
Definition CREATE_HEAD : string := "
                MATCH (a:Concept), (b:Concept)
                WHERE id(a) = $source AND id(b) = $target
                CREATE (a)-[r:`".

Definition CREATE_TAIL : string := "`]->(b)
                RETURN id(a) AS source, id(b) AS target, type(r) AS type
            ".

(** What the store makes of a statement. *)
Inductive query :=
| QNodes
| QLinks
| QSearch
| QConceptCount
| QRelationshipCount
| QCreate (edge_type : string).

Fixpoint strip_prefix (p s : string) : option string :=
  match p, s with
  | "", _ => Some s
  | String a p', String b s' => if Ascii.eqb a b then strip_prefix p' s' else None
  | String _ _, "" => None
  end.

(** Cypher's backquoted name, read from just after the opening
    backquote: it runs to the next backquote, and two backquotes in a
    row stand for one inside the name.  Gives the name and the text
    that follows the closing backquote. *)
Fixpoint read_quoted (s : string) : option (string * string) :=
  match s with
  | "" => None
  | String "`"%char s' =>
      match s' with
      | String "`"%char s'' =>
          match read_quoted s'' with
          | Some (nm, rest) => Some (String "`"%char nm, rest)
          | None => None
          end
      | _ => Some ("", s')
      end
  | String c s' =>
      match read_quoted s' with
      | Some (nm, rest) => Some (String c nm, rest)
      | None => None
      end
  end.

Fixpoint has_backquote (s : string) : bool :=
  match s with
  | "" => false
  | String c s' => Ascii.eqb c "`"%char || has_backquote s'
  end.

Fixpoint has_char (c : ascii) (s : string) : bool :=
  match s with
  | "" => false
  | String c' s' => Ascii.eqb c' c || has_char c s'
  end.

(** A type that stays what it is between the backquotes: it holds no
    backquote, which would close the name, and no backslash, which may
    start a unicode escape that the store resolves before it reads the
    statement (the escape of the backquote among them). *)
Definition plain_type (ty : string) : bool :=
  negb (has_backquote ty) && negb (has_char "\"%char ty).

(** A name the store takes as a token: not empty and free of the null
    character. *)
Definition valid_token (nm : string) : bool :=
  negb (String.eqb nm "") && negb (has_char "000"%char nm).

(** The statement is the relationship-creating one when, after the
    head, one backquoted name is read and exactly the rest of the
    template follows it.  A statement whose name holds a backslash is
    not read here: what its escapes stand for is the store's to say
    ([cypher_other]). *)
Definition parse_create (stmt : string) : option string :=
  match strip_prefix CREATE_HEAD stmt with
  | Some after =>
      match read_quoted after with
      | Some (nm, rest) =>
          if String.eqb ("`" +:+ rest) CREATE_TAIL && negb (has_char "\"%char nm)
          then Some nm else None
      | None => None
      end
  | None => None
  end.

Definition cypher_parse (stmt : string) : option query :=
  if String.eqb stmt NODES_QUERY then Some QNodes
  else if String.eqb stmt LINKS_QUERY then Some QLinks
  else if String.eqb stmt SEARCH_QUERY then Some QSearch
  else if String.eqb stmt CONCEPT_COUNT_QUERY then Some QConceptCount
  else if String.eqb stmt RELATIONSHIP_COUNT_QUERY then Some QRelationshipCount
  else QCreate <$> parse_create stmt.

Definition node_row (p : Z * node) : record :=
  [("id", VInt p.1); ("name", name p.2)].

Definition link_row (r : rel) : record :=
  [("source", VInt (rel_source r)); ("target", VInt (rel_target r));
   ("type", VStr (rel_type r))].

Definition count_row (n : nat) : record := [("count", VInt (Z.of_nat n))].

(** The rows a recognised statement yields on a graph, and the graph
    it leaves.  [None] is a statement the store refuses: a parameter is
    missing or of the wrong kind, or the edge type is no valid token
    name. *)
Definition cypher_exec (q : query) (params : gmap string value) (g : Graph)
    : option (list record * Graph) :=
  match q with
  | QNodes => Some (node_row <$> concepts g, g)
  | QLinks => Some (link_row <$> concept_links g, g)
  | QSearch =>
      match params !! "query" with
      | Some (VStr q) =>
          Some (take 10 (node_row <$> filter (λ p, name_contains q (name p.2)) (concepts g)), g)
      | _ => None
      end
  | QConceptCount => Some ([count_row (length (concepts g))], g)
  | QRelationshipCount => Some ([count_row (length (rels g))], g)
  | QCreate ty =>
      match params !! "source", params !! "target" with
      | Some (VInt a), Some (VInt b) =>
          if negb (valid_token ty) then None
          else if concept_at g a && concept_at g b then
            let r := {| rel_source := a; rel_target := b; rel_type := ty |} in
            Some ([link_row r], {| nodes := nodes g; rels := rels g ++ [r] |})
          else Some ([], g)
      | _, _ => None
      end
  end.

(** The text of the store's error when it refuses a statement. *)
Definition refusal (q : query) : string :=
  match q with
  | QCreate _ =>
      "'' is not a valid token name. Token names cannot be empty or contain any null-bytes."
  | _ => "Expected parameter(s)"
  end.

(** A session on the store.  [faults] schedules the store's failures:
    each statement sent consumes the head, and [Some msg] makes that
    statement raise the driver's error with text [msg] (connection lost,
    store down); an empty schedule means no failure.  [issued] records
    every statement handed to [session.run], with its parameters. *)
Record Session := {
  graph : Graph;
  faults : list (option string);
  issued : list (string * gmap string value)
}.

(** ** The host's processes *)

(** What [subprocess.run(command, capture_output=True, text=True)]
    meets.  The process ran, exited, and the bytes it wrote are text in
    the interpreter's encoding: [Exited], with the two texts.  The
    process ran and exited, but some captured bytes are not text:
    decoding raises [UnicodeDecodeError], whose [str(e)] is the message
    of [Undecodable], and the exit status is not looked at.  Or the
    process could not be started at all ([OSError], [ValueError] for a
    null character in an argument), with the error's [str(e)]:
    [NotSpawned]. *)
Inductive run_outcome :=
| Exited (returncode : Z) (stdout stderr : string)
| Undecodable (returncode : Z) (message : string)
| NotSpawned (message : string).

(** A process was started. *)
Definition spawned (o : run_outcome) : bool :=
  match o with
  | NotSpawned _ => false
  | _ => true
  end.

(** ** What the deployment supplies

    The parts of the running system that are not this program's: how
    the web framework prints an [HTTPException] ([str(e)]); what the
    store does with a statement that is none of the server's six; what
    the host does when asked to run a command; and, of the
    interpreter, what [int] makes of a text with characters beyond
    ASCII (it reads the decimal digits and the spaces of Unicode), the
    limit it sets on the digits of an integer text
    ([sys.get_int_max_str_digits()], 0 for none), and the [str(e)] of
    the [ValueError] of [int] and of a [CalledProcessError]. *)
Class Platform := {
  http_exception_str : Z → string → string;
  cypher_other : string → gmap string value → Graph → result (list record) * Graph;
  OS : Type;
  os_exec : list string → OS → run_outcome * OS;
  int_beyond_ascii : string → option Z;
  int_max_str_digits : nat;
  int_error_str : string → string;
  called_process_error_str : list string → Z → string
}.

(** The host as the server sees it: the operating system's own state
    and the commands for which a process was started, oldest first. *)
Record Host `{Platform} := {
  os : OS;
  launched : list (list string)
}.

(** ** Request and response shapes *)

Module RelationshipCreate.
Record t := { source : string; target : string; type : string }.
End RelationshipCreate.

Module BuilderParams.
Record t := {
  seedConcept : string;
  maxNodes : Z;
  timeout : Z;
  randomRelationships : Z;
  concurrency : Z
}.
End BuilderParams.

Module EnricherParams.
Record t := {
  batchSize : Z;
  interval : Z;
  maxRelationships : Z;
  concurrency : Z
}.
End EnricherParams.

Record node_view := { node_id : string; node_name : value }.

Record link_view := { link_source : string; link_target : string; link_type : value }.

Record GraphData := { gd_nodes : list node_view; gd_links : list link_view }.

Record Statistics := { conceptCount : value; relationshipCount : value }.

Record command_reply := { status : string; message : string; output : string }.

(** What the client receives: the handler's value with status 200, the
    status and detail of a raised [HTTPException], 500 for any other
    exception that escapes, or 422 when the framework refuses the
    request before the handler runs. *)
Inductive response (A : Type) :=
| OK (body : A)
| Error (status_code : Z) (detail : string)
| Unprocessable.
Global Arguments OK {A} body.
Global Arguments Error {A} status_code detail.
Global Arguments Unprocessable {A}.

Definition status_of {A} (r : response A) : Z :=
  match r with
  | OK _ => 200
  | Error st _ => st
  | Unprocessable => 422
  end.

Definition respond {A} (r : result A) : response A :=
  match r with
  | Return a => OK a
  | Raise (HTTPException st d) => Error st d
  | Raise _ => Error 500 "Internal Server Error"
  end.

Definition serve {S A} (handler : M S A) : S → response A * S := λ s,
  let '(r, s') := handler s in (respond r, s').

(** ** The handlers *)

Section Handlers.
Context `{Platform}.

(** [str(e)]. *)
Definition str_exn (e : exn) : string :=
  match e with
  | HTTPException st d => http_exception_str st d
  | CalledProcessError cmd rc _ _ => called_process_error_str cmd rc
  | Exception m => m
  end.

(** The interpreter looks at its limit only for texts of more than
    640 digits. *)
Definition digits_allowed (s : string) : bool :=
  (count_digits s <=? 640)%nat
  || (int_max_str_digits =? 0)%nat
  || (count_digits s <=? int_max_str_digits)%nat.

(** [int(s)] as the interpreter evaluates it. *)
Definition interp_int (s : string) : option Z :=
  if is_ascii s then
    if digits_allowed s then py_int s else None
  else int_beyond_ascii s.

Definition int_or_raise {S} (s : string) : M S Z :=
  match interp_int s with
  | Some z => mret z
  | None => raise (Exception (int_error_str s))
  end.

(** [session.run(stmt, params)].  The driver hands rows over as the
    caller iterates; every handler consumes the whole result inside
    the [try] that sent the statement, so a failure while iterating is
    the same to it as a failure of the statement, and the rows are
    modelled as delivered at once. *)
Definition session_run (stmt : string) (params : gmap string value)
    : M Session (list record) := λ s,
  let log := issued s ++ [(stmt, params)] in
  match faults s with
  | Some msg :: fs =>
      (Raise (Exception msg), {| graph := graph s; faults := fs; issued := log |})
  | fs0 =>
      let fs := tail fs0 in
      match cypher_parse stmt with
      | Some q =>
          match cypher_exec q params (graph s) with
          | Some (rows, g') =>
              (Return rows, {| graph := g'; faults := fs; issued := log |})
          | None =>
              (Raise (Exception (refusal q)),
               {| graph := graph s; faults := fs; issued := log |})
          end
      | None =>
          let '(r, g') := cypher_other stmt params (graph s) in
          (r, {| graph := g'; faults := fs; issued := log |})
      end
  end.

(** [subprocess.run(command, capture_output=True, text=True, check=True)]:
    the captured bytes are decoded first, and bytes that are not text
    raise whatever the exit status; then, with [check=True], a non-zero
    exit status raises [CalledProcessError]; on return, the captured
    standard output is what the caller reads. *)
Definition subprocess_run (command : list string) : M Host string := λ h,
  let '(o, os') := os_exec command (os h) in
  let h' := {| os := os';
               launched := launched h ++ (if spawned o then [command] else []) |} in
  match o with
  | Exited rc out err =>
      if rc =? 0 then (Return out, h')
      else (Raise (CalledProcessError command rc out err), h')
  | Undecodable _ msg => (Raise (Exception msg), h')
  | NotSpawned msg => (Raise (Exception msg), h')
  end.

Definition run_command (command : list string) : M Host string :=
  try_except
    (subprocess_run command)
    is_CalledProcessError
    (λ e,
       match e with
       | CalledProcessError _ _ _ err =>
           raise (HTTPException 500 ("Command failed: " +:+ err))
       | _ => raise e
       end).

Definition node_of_record (r : record) : M Session node_view :=
  i ← record_get r "id";
  n ← record_get r "name";
  mret {| node_id := py_str i; node_name := n |}.

Definition link_of_record (r : record) : M Session link_view :=
  s ← record_get r "source";
  t ← record_get r "target";
  ty ← record_get r "type";
  mret {| link_source := py_str s; link_target := py_str t; link_type := ty |}.

Definition get_graph_data : M Session GraphData :=
  try_except
    (nodes_result ← session_run NODES_QUERY ∅;
     nodes ← for_each node_of_record nodes_result;
     links_result ← session_run LINKS_QUERY ∅;
     links ← for_each link_of_record links_result;
     mret {| gd_nodes := nodes; gd_links := links |})
    is_Exception
    (λ e, raise (HTTPException 500 ("Error fetching graph data: " +:+ str_exn e))).

Definition builder_command (params : BuilderParams.t) : list string :=
  ["/bin/sh"; "/app/start-builder.sh";
   "--seed"; BuilderParams.seedConcept params;
   "--max-nodes"; pretty (BuilderParams.maxNodes params);
   "--timeout"; pretty (BuilderParams.timeout params);
   "--random-relationships"; pretty (BuilderParams.randomRelationships params);
   "--concurrency"; pretty (BuilderParams.concurrency params)].

Definition start_builder (params : BuilderParams.t) : M Host command_reply :=
  try_except
    (output ← run_command (builder_command params);
     mret {| status := "success"; message := "Builder started successfully";
             output := output |})
    is_Exception
    (λ e, raise (HTTPException 500 ("Error starting builder: " +:+ str_exn e))).

Definition stop_builder_command : list string := ["/bin/sh"; "/app/stop-builder.sh"].

Definition stop_builder : M Host command_reply :=
  try_except
    (output ← run_command stop_builder_command;
     mret {| status := "success"; message := "Builder stopped successfully";
             output := output |})
    is_Exception
    (λ e, raise (HTTPException 500 ("Error stopping builder: " +:+ str_exn e))).

Definition enricher_command (params : EnricherParams.t) : list string :=
  ["/bin/sh"; "/app/start-enricher.sh";
   "--batch-size"; pretty (EnricherParams.batchSize params);
   "--interval"; pretty (EnricherParams.interval params);
   "--max-relationships"; pretty (EnricherParams.maxRelationships params);
   "--concurrency"; pretty (EnricherParams.concurrency params)].

Definition start_enricher (params : EnricherParams.t) : M Host command_reply :=
  try_except
    (output ← run_command (enricher_command params);
     mret {| status := "success"; message := "Enricher started successfully";
             output := output |})
    is_Exception
    (λ e, raise (HTTPException 500 ("Error starting enricher: " +:+ str_exn e))).

Definition stop_enricher_command : list string := ["/bin/sh"; "/app/stop-enricher.sh"].

Definition stop_enricher : M Host command_reply :=
  try_except
    (output ← run_command stop_enricher_command;
     mret {| status := "success"; message := "Enricher stopped successfully";
             output := output |})
    is_Exception
    (λ e, raise (HTTPException 500 ("Error stopping enricher: " +:+ str_exn e))).

Definition search_concepts (q : string) : M Session (list node_view) :=
  try_except
    (result ← session_run SEARCH_QUERY {[ "query" := VStr q ]};
     concepts ← for_each node_of_record result;
     mret concepts)
    is_Exception
    (λ e, raise (HTTPException 500 ("Error searching concepts: " +:+ str_exn e))).

(** The route [GET /api/concepts/search]: the parameter is declared
    [Query(..., min_length=1)], so the framework answers 422 to a
    shorter [q] and the handler does not run. *)
Definition search_endpoint (q : string) : Session → response (list node_view) * Session :=
  λ s, if (String.length q <? 1)%nat then (Unprocessable, s)
       else serve (search_concepts q) s.

Definition create_relationship (relationship : RelationshipCreate.t)
    : M Session link_view :=
  try_except
    (let stmt := py_format CREATE_TEMPLATE (RelationshipCreate.type relationship) in
     source ← int_or_raise (RelationshipCreate.source relationship);
     target ← int_or_raise (RelationshipCreate.target relationship);
     result ← session_run stmt {[ "source" := VInt source; "target" := VInt target ]};
     match single result with
     | None => raise (HTTPException 404 "Concepts not found")
     | Some record => link_of_record record
     end)
    is_Exception
    (λ e, raise (HTTPException 500 ("Error creating relationship: " +:+ str_exn e))).

(** [result.single()["count"]]; subscripting [None] is a [TypeError]. *)
Definition single_count (rows : list record) : M Session value :=
  match single rows with
  | Some r => record_get r "count"
  | None => raise (Exception "'NoneType' object is not subscriptable")
  end.

Definition get_statistics : M Session Statistics :=
  try_except
    (concept_result ← session_run CONCEPT_COUNT_QUERY ∅;
     concept_count ← single_count concept_result;
     relationship_result ← session_run RELATIONSHIP_COUNT_QUERY ∅;
     relationship_count ← single_count relationship_result;
     mret {| conceptCount := concept_count; relationshipCount := relationship_count |})
    is_Exception
    (λ e, raise (HTTPException 500 ("Error fetching statistics: " +:+ str_exn e))).

End Handlers.

(** ** Views and failure schedules *)

(** The view a handler builds from a node row and from an edge row. *)
Definition node_view_of (p : Z * node) : node_view :=
  {| node_id := pretty p.1; node_name := name p.2 |}.

Definition link_view_of (r : rel) : link_view :=
  {| link_source := pretty (rel_source r); link_target := pretty (rel_target r);
     link_type := VStr (rel_type r) |}.

(** The failure scheduled for the next statement, if any. *)
Definition fails_next (fs : list (option string)) : option string :=
  match fs with
  | Some msg :: _ => Some msg
  | _ => None
  end.

(** ** Concrete deployments

    Instances of [Platform] and states on which the handlers are run
    in the examples below. *)

(** Starlette's [HTTPException.__str__]: the status code, a colon and
    the detail. *)
Definition starlette_str (st : Z) (d : string) : string :=
  pretty st +:+ ": " +:+ d.

(** The two states the specification gives each worker, stopped and
    running, for the builder and for the enricher. *)
Record worker_states := { builder_running : bool; enricher_running : bool }.

(** Modelled from the spec: the launch and stop scripts
    ([/app/start-builder.sh], [/app/stop-builder.sh],
    [/app/start-enricher.sh], [/app/stop-enricher.sh]), which are not
    among the sources.  By the specification a start launches the
    worker, with no second instance when one is running; a stop
    signals the worker to terminate; and a stop while already stopped
    is accepted with success, a no-op.  The specification does not say
    what the scripts print, and they print nothing here.  A command
    that is none of the four scripts is not found. *)
Definition script_host_exec (command : list string) (w : worker_states)
    : run_outcome * worker_states :=
  match command with
  | "/bin/sh" :: "/app/start-builder.sh" :: _ =>
      (Exited 0 "" "",
       {| builder_running := true; enricher_running := enricher_running w |})
  | "/bin/sh" :: "/app/start-enricher.sh" :: _ =>
      (Exited 0 "" "",
       {| builder_running := builder_running w; enricher_running := true |})
  | ["/bin/sh"; "/app/stop-builder.sh"] =>
      (Exited 0 "" "",
       {| builder_running := false; enricher_running := enricher_running w |})
  | ["/bin/sh"; "/app/stop-enricher.sh"] =>
      (Exited 0 "" "",
       {| builder_running := builder_running w; enricher_running := false |})
  | _ => (NotSpawned "[Errno 2] No such file or directory", w)
  end.

(** A store that refuses every statement it does not know. *)
Definition refuse_other (stmt : string) (params : gmap string value) (g : Graph)
    : result (list record) * Graph :=
  (Raise (Exception "Invalid input"), g).

(** An interpreter for the examples.  Its limit on digits is CPython's
    default.  The examples give [int] ASCII text only, so what this
    interpreter makes of other text is never asked (it refuses it),
    and the two error texts are CPython's for short arguments without
    quotes. *)
Definition refuse_beyond_ascii (s : string) : option Z := None.

Definition invalid_literal_str (s : string) : string :=
  "invalid literal for int() with base 10: " +:+ py_repr s.

Definition exit_status_str (cmd : list string) (rc : Z) : string :=
  "Command returned non-zero exit status " +:+ pretty rc +:+ ".".

Definition script_host : Platform := {|
  http_exception_str := starlette_str;
  cypher_other := refuse_other;
  OS := worker_states;
  os_exec := script_host_exec;
  int_beyond_ascii := refuse_beyond_ascii;
  int_max_str_digits := 4300;
  int_error_str := invalid_literal_str;
  called_process_error_str := exit_status_str
|}.

Definition no_workers : worker_states :=
  {| builder_running := false; enricher_running := false |}.

Definition fresh_host : @Host script_host :=
  @Build_Host script_host no_workers [].

(** A host given by what it answers: every command meets the outcome
    [o].  It has no state of its own. *)
Definition fixed_outcome_host (o : run_outcome) : Platform := {|
  http_exception_str := starlette_str;
  cypher_other := refuse_other;
  OS := unit;
  os_exec := λ _ _, (o, tt);
  int_beyond_ascii := refuse_beyond_ascii;
  int_max_str_digits := 4300;
  int_error_str := invalid_literal_str;
  called_process_error_str := exit_status_str
|}.

Definition idle_host (o : run_outcome) : @Host (fixed_outcome_host o) :=
  @Build_Host (fixed_outcome_host o) tt [].

(** The launch script exits with status zero and some text. *)
Definition clean_start : run_outcome := Exited 0 "started" "".

(** The launch script exits with status zero and has written a byte
    that is not text. *)
Definition garbled_start : run_outcome :=
  Undecodable 0 "'utf-8' codec can't decode byte 0xff in position 0: invalid start byte".

Definition physics_params : BuilderParams.t := {|
  BuilderParams.seedConcept := "Physics";
  BuilderParams.maxNodes := 50;
  BuilderParams.timeout := 60;
  BuilderParams.randomRelationships := 5;
  BuilderParams.concurrency := 2
|}.

Definition batch_params : EnricherParams.t := {|
  EnricherParams.batchSize := 10;
  EnricherParams.interval := 30;
  EnricherParams.maxRelationships := 100;
  EnricherParams.concurrency := 2
|}.

(** A small graph: two concepts joined by one edge, and a node of
    another kind that is linked to a concept. *)
Definition small_graph : Graph := {|
  nodes := {[ 3 := {| labels := ["Concept"]; name := VStr "Physics" |};
              7 := {| labels := ["Concept"]; name := VStr "Metaphysics" |};
              9 := {| labels := ["Source"]; name := VStr "Physics Today" |} ]};
  rels := [ {| rel_source := 3; rel_target := 7; rel_type := "RELATED_TO" |};
            {| rel_source := 9; rel_target := 3; rel_type := "MENTIONS" |} ]
|}.

(** Requests on the small graph: one whose target is no node of the
    graph, one whose source is not a number, and one whose type closes
    the backquoted name and carries clauses of its own. *)
Definition missing_target_request : RelationshipCreate.t := {|
  RelationshipCreate.source := "3";
  RelationshipCreate.target := "8";
  RelationshipCreate.type := "RELATED_TO"
|}.

Definition bad_source_request : RelationshipCreate.t := {|
  RelationshipCreate.source := "abc";
  RelationshipCreate.target := "7";
  RelationshipCreate.type := "RELATED_TO"
|}.

(** A request between the two concepts of the small graph, with the
    ids spelled with a space and a sign. *)
Definition spelled_request : RelationshipCreate.t := {|
  RelationshipCreate.source := " 7";
  RelationshipCreate.target := "+3";
  RelationshipCreate.type := "CITES"
|}.

Definition cites_edge : rel :=
  {| rel_source := 7; rel_target := 3; rel_type := "CITES" |}.

Definition cites_view : link_view :=
  {| link_source := "7"; link_target := "3"; link_type := VStr "CITES" |}.

(** A session on the small graph whose next statement fails. *)
Definition failing_session : Session :=
  {| graph := small_graph; faults := [Some "connection refused"]; issued := [] |}.

Definition crafted_type : string := "R`]->(b) DETACH DELETE a //".

Definition crafted_request : RelationshipCreate.t := {|
  RelationshipCreate.source := "3";
  RelationshipCreate.target := "7";
  RelationshipCreate.type := crafted_type
|}.

Definition small_session : Session :=
  {| graph := small_graph; faults := []; issued := [] |}.

(** What [getGraph] and [getStatistics] answer on the small graph. *)
Definition small_graph_data : GraphData := {|
  gd_nodes := [ {| node_id := "7"; node_name := VStr "Metaphysics" |};
                {| node_id := "3"; node_name := VStr "Physics" |} ];
  gd_links := [ {| link_source := "3"; link_target := "7";
                   link_type := VStr "RELATED_TO" |} ]
|}.

Definition small_statistics : Statistics :=
  {| conceptCount := VInt 2; relationshipCount := VInt 2 |}.

(** * Properties *)

(** ** Strings *)

Lemma app_cons_s (c : ascii) (a b : string) : String c a +:+ b = String c (a +:+ b).
Proof. reflexivity. Qed.

Lemma app_assoc_s (a b c : string) : (a +:+ b) +:+ c = a +:+ b +:+ c.
Proof. induction a as [|x a IH]; [done|]. by rewrite !app_cons_s, IH. Qed.

Lemma app_nil_r_s (a : string) : a +:+ "" = a.
Proof. induction a as [|x a IH]; [done|]. by rewrite app_cons_s, IH. Qed.

Lemma contains_refl (s : string) : contains s s.
Proof. exists "", "". by rewrite app_nil_r_s. Qed.

Lemma contains_app_r (p s sub : string) : contains s sub → contains (p +:+ s) sub.
Proof.
  intros (pre & post & ->). exists (p +:+ pre), post. by rewrite app_assoc_s.
Qed.

Lemma prefix_app (sub s : string) :
  String.prefix sub s = true → ∃ post, s = sub +:+ post.
Proof.
  revert s. induction sub as [|a sub IH]; intros s Hp.
  - by exists s.
  - destruct s as [|b s]; [done|]. simpl in Hp.
    destruct (ascii_dec a b) as [->|]; [|done].
    destruct (IH _ Hp) as [post ->]. by exists post.
Qed.

Lemma app_prefix (sub post : string) : String.prefix sub (sub +:+ post) = true.
Proof.
  induction sub as [|a sub IH]; [by destruct post|].
  rewrite app_cons_s. simpl. by destruct (ascii_dec a a).
Qed.

(** The executable test and the meaning of containment agree. *)
Lemma is_substring_contains (sub s : string) :
  is_substring sub s = true ↔ contains s sub.
Proof.
  split.
  - induction s as [|c s IH]; cbn [is_substring]; intros Hs.
    + apply orb_true_iff in Hs as [Hp|]; [|done].
      destruct (prefix_app _ _ Hp) as [post ->]. by exists "", post.
    + apply orb_true_iff in Hs as [Hp|Hs].
      * destruct (prefix_app _ _ Hp) as [post Hpost]. exists "", post. by rewrite Hpost.
      * destruct (IH Hs) as (pre & post & ->). by exists (String c pre), post.
  - intros (pre & post & ->). induction pre as [|c pre IH].
    + change ("" +:+ sub +:+ post) with (sub +:+ post).
      destruct (sub +:+ post) eqn:E; cbn [is_substring];
        rewrite <-E, app_prefix; done.
    + rewrite app_cons_s. cbn [is_substring]. rewrite IH. by rewrite orb_true_r.
Qed.

Lemma starlette_str_contains (st : Z) (d : string) : contains (starlette_str st d) d.
Proof.
  unfold starlette_str. apply contains_app_r, contains_app_r, contains_refl.
Qed.

(** ** Decimal strings: [int(str(z)) = z] *)

Lemma lstrip_no_space (s : string) : no_space s = true → lstrip s = s.
Proof.
  destruct s as [|c s]; [done|]. simpl.
  intros [Hc _]%andb_true_iff. by destruct (py_isspace c).
Qed.

Lemma rstrip_no_space (s : string) : no_space s = true → rstrip s = s.
Proof.
  induction s as [|c s IH]; [done|]. simpl.
  intros [Hc Hs]%andb_true_iff. rewrite (IH Hs).
  destruct s; [|done]. by destruct (py_isspace c).
Qed.

Lemma digit_of_pretty_char (d : N) :
  (d < 10)%N → digit_of (pretty_N_char d) = Some (Z.of_N d).
Proof.
  intros Hd.
  assert (d = 0 ∨ d = 1 ∨ d = 2 ∨ d = 3 ∨ d = 4 ∨ d = 5 ∨ d = 6 ∨ d = 7
          ∨ d = 8 ∨ d = 9)%N as Hcases by lia.
  by repeat (destruct Hcases as [->|Hcases]); [..|subst d].
Qed.

Lemma pretty_char_no_space (d : N) : py_isspace (pretty_N_char d) = false.
Proof. unfold pretty_N_char. by repeat case_match. Qed.

Lemma pretty_N_go_no_space (x : N) (s : string) :
  no_space s = true → no_space (pretty_N_go x s) = true.
Proof.
  revert s. induction (N.lt_wf_0 x) as [x _ IH]; intros s Hs.
  assert (x = 0 ∨ 0 < x)%N as [->|Hx] by lia; [done|].
  rewrite pretty_N_go_step by done. apply IH; [by apply N.div_lt|].
  simpl. by rewrite pretty_char_no_space.
Qed.

(** The printed digits start with a digit. *)
Lemma pretty_N_go_head (x : N) (s : string) :
  (0 < x)%N →
  ∃ c r, pretty_N_go x s = String c r ∧ is_Some (digit_of c).
Proof.
  revert s. induction (N.lt_wf_0 x) as [x _ IH]; intros s Hx.
  rewrite pretty_N_go_step by done.
  destruct (N.eq_0_gt_0_cases (x `div` 10)) as [->|Hq].
  - eexists _, _. split; [done|].
    rewrite digit_of_pretty_char; [done|]. by apply N.mod_lt.
  - apply IH; [by apply N.div_lt|done].
Qed.

(** Reading the printed digits of [x] back shifts the number read so
    far by a power of ten and adds [x]. *)
Lemma int_digits_pretty_N_go (x : N) :
  (0 < x)%N →
  ∃ m : Z, ∀ s st acc,
    int_digits st acc (pretty_N_go x s) = int_digits AfterDigit (acc * m + Z.of_N x) s.
Proof.
  induction (N.lt_wf_0 x) as [x _ IH]; intros Hx.
  assert (Hr : (x `mod` 10 < 10)%N) by by apply N.mod_lt.
  assert (Hdiv : x = (10 * (x `div` 10) + x `mod` 10)%N) by by apply N.div_mod.
  destruct (N.eq_0_gt_0_cases (x `div` 10)) as [Hq|Hq].
  - exists 10. intros s st acc. rewrite pretty_N_go_step, Hq by done.
    rewrite pretty_N_go_0. simpl. rewrite digit_of_pretty_char by done.
    f_equal. lia.
  - destruct (IH (x `div` 10)%N) as [m Hm]; [by apply N.div_lt|done|].
    exists (10 * m). intros s st acc. rewrite pretty_N_go_step by done.
    rewrite Hm. simpl. rewrite digit_of_pretty_char by done.
    f_equal. lia.
Qed.

Lemma py_int_digit_start (c : ascii) (r : string) :
  is_Some (digit_of c) → no_space (String c r) = true →
  py_int (String c r) = int_digits AtStart 0 (String c r).
Proof.
  intros Hc Hs. unfold py_int.
  rewrite (lstrip_no_space _ Hs), (rstrip_no_space _ Hs).
  destruct c as [[] [] [] [] [] [] [] []]; try done; by destruct Hc.
Qed.

Lemma py_int_pretty_pos (p : positive) :
  let t := pretty_N_go (N.pos p) "" in
  no_space t = true ∧ py_int t = Some (Z.pos p) ∧
  int_digits AtStart 0 t = Some (Z.pos p) ∧ t ≠ "".
Proof.
  intros t. subst t.
  assert (Hs : no_space (pretty_N_go (N.pos p) "") = true)
    by by apply pretty_N_go_no_space.
  destruct (pretty_N_go_head (N.pos p) "") as (c & r & Hcr & Hc); [done|].
  destruct (int_digits_pretty_N_go (N.pos p)) as [m Hm]; [done|].
  assert (Hd : int_digits AtStart 0 (pretty_N_go (N.pos p) "") = Some (Z.pos p)).
  { rewrite Hm. simpl. f_equal. }
  repeat split; [done| |done|by rewrite Hcr].
  rewrite Hcr in Hs |- *. rewrite py_int_digit_start by done. by rewrite <-Hcr.
Qed.

(** Reading back what [str] printed gives the number: the string is
    the decimal numeral of [z]. *)
Lemma py_int_pretty (z : Z) : py_int (pretty z) = Some z.
Proof.
  destruct z as [|p|p]; [done| |].
  - by destruct (py_int_pretty_pos p) as (_ & ? & _).
  - destruct (py_int_pretty_pos p) as (Hs & _ & Hd & Hne).
    change (pretty (Z.neg p)) with (String "-"%char (pretty_N_go (N.pos p) "")).
    unfold py_int. rewrite lstrip_no_space by (simpl; by rewrite Hs).
    rewrite rstrip_no_space by (simpl; by rewrite Hs).
    by rewrite Hd.
Qed.

(** ** Starting and stopping the workers *)

Section WorkerProperties.
Context `{Platform}.

(** [run_command] in one step: the host is asked once to run the
    command; a zero exit status with text output gives the captured
    output, a non-zero one the 500 with the captured standard error,
    and a process that could not be started or whose output is not
    text goes on to the caller as the error it is. *)
Lemma run_command_unfold (command : list string) (h : Host) :
  run_command command h =
  (match (os_exec command (os h)).1 with
   | Exited rc out err =>
       if rc =? 0 then Return out
       else Raise (HTTPException 500 ("Command failed: " +:+ err))
   | Undecodable _ msg => Raise (Exception msg)
   | NotSpawned msg => Raise (Exception msg)
   end,
   {| os := (os_exec command (os h)).2;
      launched := launched h ++
                  (if spawned (os_exec command (os h)).1 then [command] else []) |}).
Proof.
  unfold run_command, try_except, subprocess_run, raise.
  destruct (os_exec command (os h)) as [[rc out err|rc msg|msg] os']; simpl;
    [|done|done].
  by destruct (rc =? 0).
Qed.

(** A handler of the shape shared by the four worker routes: run one
    command, wrap its output in a reply, turn any exception into a
    500 whose detail starts with [prefix]. *)
Lemma worker_handler_unfold (command : list string) (msg prefix : string) (h : Host) :
  try_except
    (output ← run_command command;
     mret {| status := "success"; message := msg; output := output |})
    is_Exception
    (λ e, raise (HTTPException 500 (prefix +:+ str_exn e))) h =
  (match (os_exec command (os h)).1 with
   | Exited rc out err =>
       if rc =? 0 then Return {| status := "success"; message := msg; output := out |}
       else Raise (HTTPException 500
                     (prefix +:+ http_exception_str 500 ("Command failed: " +:+ err)))
   | Undecodable _ m => Raise (HTTPException 500 (prefix +:+ m))
   | NotSpawned m => Raise (HTTPException 500 (prefix +:+ m))
   end,
   {| os := (os_exec command (os h)).2;
      launched := launched h ++
                  (if spawned (os_exec command (os h)).1 then [command] else []) |}).
Proof.
  unfold try_except, mbind, M_bind. rewrite run_command_unfold.
  destruct (os_exec command (os h)) as [[rc out err|rc m|m] os']; simpl;
    [|done|done].
  by destruct (rc =? 0).
Qed.

Lemma start_builder_unfold (params : BuilderParams.t) (h : Host) :
  start_builder params h =
  (match (os_exec (builder_command params) (os h)).1 with
   | Exited rc out err =>
       if rc =? 0 then
         Return {| status := "success"; message := "Builder started successfully";
                   output := out |}
       else Raise (HTTPException 500
                     ("Error starting builder: "
                      +:+ http_exception_str 500 ("Command failed: " +:+ err)))
   | Undecodable _ m => Raise (HTTPException 500 ("Error starting builder: " +:+ m))
   | NotSpawned m => Raise (HTTPException 500 ("Error starting builder: " +:+ m))
   end,
   {| os := (os_exec (builder_command params) (os h)).2;
      launched := launched h ++
                  (if spawned (os_exec (builder_command params) (os h)).1
                   then [builder_command params] else []) |}).
Proof. apply worker_handler_unfold. Qed.

Lemma start_enricher_unfold (params : EnricherParams.t) (h : Host) :
  start_enricher params h =
  (match (os_exec (enricher_command params) (os h)).1 with
   | Exited rc out err =>
       if rc =? 0 then
         Return {| status := "success"; message := "Enricher started successfully";
                   output := out |}
       else Raise (HTTPException 500
                     ("Error starting enricher: "
                      +:+ http_exception_str 500 ("Command failed: " +:+ err)))
   | Undecodable _ m => Raise (HTTPException 500 ("Error starting enricher: " +:+ m))
   | NotSpawned m => Raise (HTTPException 500 ("Error starting enricher: " +:+ m))
   end,
   {| os := (os_exec (enricher_command params) (os h)).2;
      launched := launched h ++
                  (if spawned (os_exec (enricher_command params) (os h)).1
                   then [enricher_command params] else []) |}).
Proof. apply worker_handler_unfold. Qed.

Lemma contains_trans (s t u : string) : contains s t → contains t u → contains s u.
Proof.
  intros (p1 & q1 & ->) (p2 & q2 & ->). exists (p1 +:+ p2), (q2 +:+ q1).
  by rewrite !app_assoc_s.
Qed.

(** The detail of a [run_command] failure after the route's own
    handler has wrapped it still holds the standard error text. *)
Lemma wrapped_detail_contains (prefix err : string) :
  (∀ st d, contains (http_exception_str st d) d) →
  contains (prefix +:+ http_exception_str 500 ("Command failed: " +:+ err)) err.
Proof.
  intros Hstr. apply contains_app_r.
  eapply contains_trans; [apply Hstr|]. apply contains_app_r, contains_refl.
Qed.

(** What one launch outcome makes a start route answer, for a route
    whose success message is [msg]. *)
Lemma launch_answer (command : list string) (msg prefix : string) (h : Host) :
  (∀ st d, contains (http_exception_str st d) d) →
  let r := (serve (try_except
                     (output ← run_command command;
                      mret {| status := "success"; message := msg; output := output |})
                     is_Exception
                     (λ e, raise (HTTPException 500 (prefix +:+ str_exn e)))) h).1 in
  match (os_exec command (os h)).1 with
  | Exited rc out err =>
      if decide (rc = 0) then
        r = OK {| status := "success"; message := msg; output := out |}
      else ∃ d, r = Error 500 d ∧ contains d err
  | Undecodable _ m => ∃ d, r = Error 500 d ∧ contains d m
  | NotSpawned m => ∃ d, r = Error 500 d ∧ contains d m
  end.
Proof.
  intros Hstr r. subst r. unfold serve. rewrite worker_handler_unfold.
  destruct (os_exec command (os h)).1 as [rc out err|rc m|m]; simpl.
  - case_decide as Hrc; [by subst rc|].
    apply Z.eqb_neq in Hrc. rewrite Hrc. simpl. eexists. split; [done|].
    by apply wrapped_detail_contains.
  - eexists. split; [done|]. apply contains_app_r, contains_refl.
  - eexists. split; [done|]. apply contains_app_r, contains_refl.
Qed.

(** C7, as the program has it.  A start call answers by what became of
    the launch script.  When the framework prints an [HTTPException]
    with its detail in it: if the script exits with status zero and
    what it wrote is text, the reply has status "success" and the
    captured standard output as its output; if it exits non-zero and
    what it wrote is text, the reply is a 500 whose detail holds the
    script's standard error text unchanged; if what it wrote is not
    text in the interpreter's encoding, whatever its exit status, or
    if the process could not be started, the reply is a 500 whose
    detail holds the message of the error.  Both for the builder and
    for the enricher. *)
Theorem start_reports_launch_outcome
    (bp : BuilderParams.t) (ep : EnricherParams.t) (h : Host) :
  (∀ st d, contains (http_exception_str st d) d) →
  match (os_exec (builder_command bp) (os h)).1 with
  | Exited rc out err =>
      if decide (rc = 0) then
        (serve (start_builder bp) h).1 =
        OK {| status := "success"; message := "Builder started successfully";
              output := out |}
      else ∃ d, (serve (start_builder bp) h).1 = Error 500 d ∧ contains d err
  | Undecodable _ m =>
      ∃ d, (serve (start_builder bp) h).1 = Error 500 d ∧ contains d m
  | NotSpawned m =>
      ∃ d, (serve (start_builder bp) h).1 = Error 500 d ∧ contains d m
  end ∧
  match (os_exec (enricher_command ep) (os h)).1 with
  | Exited rc out err =>
      if decide (rc = 0) then
        (serve (start_enricher ep) h).1 =
        OK {| status := "success"; message := "Enricher started successfully";
              output := out |}
      else ∃ d, (serve (start_enricher ep) h).1 = Error 500 d ∧ contains d err
  | Undecodable _ m =>
      ∃ d, (serve (start_enricher ep) h).1 = Error 500 d ∧ contains d m
  | NotSpawned m =>
      ∃ d, (serve (start_enricher ep) h).1 = Error 500 d ∧ contains d m
  end.
Proof.
  intros Hstr. split.
  - apply (launch_answer (builder_command bp) "Builder started successfully"
             "Error starting builder: " h Hstr).
  - apply (launch_answer (enricher_command ep) "Enricher started successfully"
             "Error starting enricher: " h Hstr).
Qed.

(** C3, as the program has it.  The server keeps no record of a worker
    being started or stopped and prevents nothing: a start call,
    whatever calls came before it and however they ended, asks the
    host once to run that worker's launch script, and the script is
    started whenever the host can start a process for it.  The host is
    left as that one request left it.  So of two start calls in a row,
    each starts the launch script.  Keeping a second instance from
    running is left to the script. *)
Theorem start_always_launches
    (bp : BuilderParams.t) (ep : EnricherParams.t) (h : Host) :
  (start_builder bp h).2 =
    {| os := (os_exec (builder_command bp) (os h)).2;
       launched := launched h ++
                   (if spawned (os_exec (builder_command bp) (os h)).1
                    then [builder_command bp] else []) |} ∧
  (start_enricher ep h).2 =
    {| os := (os_exec (enricher_command ep) (os h)).2;
       launched := launched h ++
                   (if spawned (os_exec (enricher_command ep) (os h)).1
                    then [enricher_command ep] else []) |} ∧
  (let h1 := (start_builder bp h).2 in
   launched (start_builder bp h1).2 =
     launched h ++
     (if spawned (os_exec (builder_command bp) (os h)).1
      then [builder_command bp] else []) ++
     (if spawned (os_exec (builder_command bp) (os h1)).1
      then [builder_command bp] else [])) ∧
  (let h1 := (start_enricher ep h).2 in
   launched (start_enricher ep h1).2 =
     launched h ++
     (if spawned (os_exec (enricher_command ep) (os h)).1
      then [enricher_command ep] else []) ++
     (if spawned (os_exec (enricher_command ep) (os h1)).1
      then [enricher_command ep] else [])).
Proof.
  rewrite !start_builder_unfold, !start_enricher_unfold. simpl.
  rewrite !start_builder_unfold, !start_enricher_unfold. simpl.
  by rewrite <-!(assoc_L (++)).
Qed.

End WorkerProperties.

(** With Starlette printing the exceptions, on a host where the launch
    script exits with status zero and the text "started": the builder
    and the enricher are started and the replies are the success
    replies, with that text as output. *)
Lemma start_reports_launch_outcome_on_clean_start :
  (serve (start_builder (H := fixed_outcome_host clean_start) physics_params)
     (idle_host clean_start)).1 =
    OK {| status := "success"; message := "Builder started successfully";
          output := "started" |} ∧
  (serve (start_enricher (H := fixed_outcome_host clean_start) batch_params)
     (idle_host clean_start)).1 =
    OK {| status := "success"; message := "Enricher started successfully";
          output := "started" |}.
Proof.
  exact (start_reports_launch_outcome (H := fixed_outcome_host clean_start)
           physics_params batch_params (idle_host clean_start) starlette_str_contains).
Defined.

(** C7 as the specification has it fails: the launch script exits with
    status zero, but a byte it wrote is not text, and the start call is
    answered with a 500, not with success. *)
Lemma start_builder_garbled_output_fails :
  garbled_start =
    Undecodable 0 "'utf-8' codec can't decode byte 0xff in position 0: invalid start byte" ∧
  (serve (start_builder (H := fixed_outcome_host garbled_start) physics_params)
     (idle_host garbled_start)).1 =
    Error 500 ("Error starting builder: "
               +:+ "'utf-8' codec can't decode byte 0xff in position 0: invalid start byte") ∧
  status_of (serve (start_builder (H := fixed_outcome_host garbled_start) physics_params)
               (idle_host garbled_start)).1 ≠ 200.
Proof. vm_compute. repeat split; done. Qed.

(** C3 as the specification has it fails: the first start call for the
    builder has succeeded, no stop came after it, and the second start
    call is not kept from launching: the launch script is started a
    second time, and the call answers with success as well. *)
Lemma start_builder_twice_launches_twice :
  let '(r1, h1) := serve (start_builder (H := fixed_outcome_host clean_start)
                            physics_params) (idle_host clean_start) in
  let '(r2, h2) := serve (start_builder (H := fixed_outcome_host clean_start)
                            physics_params) h1 in
  status_of r1 = 200 ∧ status_of r2 = 200 ∧
  launched h1 = [builder_command physics_params] ∧
  launched h2 = [builder_command physics_params; builder_command physics_params] ∧
  ¬ (length (launched h2) ≤ 1)%nat.
Proof. vm_compute. repeat split; try done. lia. Qed.



(** ** Reading the graph *)

Section StoreProperties.
Context `{Platform}.

Lemma node_of_record_row (p : Z * node) (s : Session) :
  node_of_record (node_row p) s = (Return (node_view_of p), s).
Proof. done. Qed.

Lemma link_of_record_row (r : rel) (s : Session) :
  link_of_record (link_row r) s = (Return (link_view_of r), s).
Proof. done. Qed.

(** A comprehension over rows on which the element expression never
    raises is a plain map and leaves the session as it was. *)
Lemma for_each_rows {A R B} (f : R → M Session B) (row : A → R) (g : A → B)
    (l : list A) (s : Session) :
  (∀ x s', f (row x) s' = (Return (g x), s')) →
  for_each f (row <$> l) s = (Return (g <$> l), s).
Proof.
  intros Hf. induction l as [|x l IH]; [done|].
  cbn [for_each fmap list_fmap]. unfold mbind, M_bind. by rewrite Hf, IH.
Qed.

(** [session.run] on a statement the store knows. *)
Lemma session_run_known (stmt : string) (q : query) (params : gmap string value)
    (s : Session) :
  cypher_parse stmt = Some q →
  session_run stmt params s =
  match faults s with
  | Some msg :: fs =>
      (Raise (Exception msg),
       {| graph := graph s; faults := fs; issued := issued s ++ [(stmt, params)] |})
  | fs0 =>
      match cypher_exec q params (graph s) with
      | Some (rows, g') =>
          (Return rows,
           {| graph := g'; faults := tail fs0; issued := issued s ++ [(stmt, params)] |})
      | None =>
          (Raise (Exception (refusal q)),
           {| graph := graph s; faults := tail fs0;
              issued := issued s ++ [(stmt, params)] |})
      end
  end.
Proof. intros Hq. unfold session_run. rewrite Hq. by destruct (faults s) as [|[]]. Qed.

Lemma parse_nodes_query : cypher_parse NODES_QUERY = Some QNodes.
Proof. reflexivity. Qed.

Lemma parse_links_query : cypher_parse LINKS_QUERY = Some QLinks.
Proof. reflexivity. Qed.

Lemma parse_search_query : cypher_parse SEARCH_QUERY = Some QSearch.
Proof. reflexivity. Qed.

Lemma parse_concept_count_query : cypher_parse CONCEPT_COUNT_QUERY = Some QConceptCount.
Proof. reflexivity. Qed.

Lemma parse_relationship_count_query :
  cypher_parse RELATIONSHIP_COUNT_QUERY = Some QRelationshipCount.
Proof. reflexivity. Qed.

(** [get_graph_data], by the store's failures: the first statement
    fails, the second fails, or both lists are built in full. *)
Lemma get_graph_data_unfold (s : Session) :
  (get_graph_data s).1 =
  match fails_next (faults s), fails_next (tail (faults s)) with
  | Some msg, _ | None, Some msg =>
      Raise (HTTPException 500 ("Error fetching graph data: " +:+ msg))
  | None, None =>
      Return {| gd_nodes := node_view_of <$> concepts (graph s);
                gd_links := link_view_of <$> concept_links (graph s) |}
  end.
Proof.
  unfold get_graph_data, try_except, mbind, M_bind.
  rewrite (session_run_known _ _ _ _ parse_nodes_query).
  destruct s as [g fs iss]. cbn [faults graph issued cypher_exec].
  destruct fs as [|[msg|] fs]; cbn [fails_next tail]; [|done|].
  - rewrite (for_each_rows _ _ node_view_of) by done.
    rewrite (session_run_known _ _ _ _ parse_links_query). cbn.
    by rewrite (for_each_rows _ _ link_view_of).
  - rewrite (for_each_rows _ _ node_view_of) by done.
    rewrite (session_run_known _ _ _ _ parse_links_query).
    cbn [faults graph issued cypher_exec].
    destruct fs as [|[msg|] fs]; cbn [fails_next tail]; [|done|].
    + by rewrite (for_each_rows _ _ link_view_of).
    + by rewrite (for_each_rows _ _ link_view_of).
Qed.

(** C6.  [getGraph] is all or nothing: the client gets either one
    error, or a body with every Concept node the store holds in the
    node list and every edge between Concept nodes in the link list.
    When the node query has been answered and the edge query fails,
    the answer is the error and the nodes are dropped. *)
Theorem get_graph_all_or_nothing (s : Session) :
  (∃ d, (serve get_graph_data s).1 = Error 500 d) ∨
  (serve get_graph_data s).1 =
    OK {| gd_nodes := node_view_of <$> concepts (graph s);
          gd_links := link_view_of <$> concept_links (graph s) |}.
Proof.
  unfold serve.
  destruct (get_graph_data s) as [r s'] eqn:E.
  pose proof (get_graph_data_unfold s) as Hr. rewrite E in Hr. simpl in Hr.
  subst r.
  destruct (fails_next (faults s)) as [msg|];
    [|destruct (fails_next (tail (faults s))) as [msg|]]; simpl; eauto.
Qed.

Lemma elem_of_concepts (g : Graph) (p : Z * node) :
  p ∈ concepts g ↔ nodes g !! p.1 = Some p.2 ∧ is_concept p.2.
Proof.
  unfold concepts. rewrite list_elem_of_filter.
  destruct p as [i n]. rewrite elem_of_map_to_list. simpl. tauto.
Qed.

(** C8.  In a successful [getGraph] answer every node id is the
    decimal numeral of the store's integer id of a Concept node, and
    every link's source and target are the decimal numerals of the ids
    at the two ends of an edge of the store: strings that [int] reads
    back to those ids. *)
Theorem graph_ids_are_decimal_strings (s : Session) (gd : GraphData) :
  (serve get_graph_data s).1 = OK gd →
  Forall (λ n, ∃ i nd, nodes (graph s) !! i = Some nd ∧ is_concept nd ∧
                       node_id n = pretty i ∧ py_int (node_id n) = Some i)
         (gd_nodes gd) ∧
  Forall (λ l, ∃ r, r ∈ rels (graph s) ∧
                    link_source l = pretty (rel_source r) ∧
                    link_target l = pretty (rel_target r) ∧
                    py_int (link_source l) = Some (rel_source r) ∧
                    py_int (link_target l) = Some (rel_target r))
         (gd_links gd).
Proof.
  intros Hok.
  destruct (get_graph_all_or_nothing s) as [[d Hd]|Hfull]; [congruence|].
  rewrite Hfull in Hok. injection Hok as <-. simpl. split.
  - apply Forall_fmap, Forall_forall. intros [i nd] [Hi Hc]%elem_of_concepts.
    exists i, nd. simpl in *. by rewrite py_int_pretty.
  - apply Forall_fmap, Forall_forall. intros r Hr.
    apply list_elem_of_filter in Hr as [_ Hr].
    exists r. simpl. by rewrite !py_int_pretty.
Qed.

(** [single_count] on the one row of a count statement. *)
Lemma single_count_row (n : nat) (s : Session) :
  single_count [count_row n] s = (Return (VInt (Z.of_nat n)), s).
Proof. done. Qed.

Lemma get_statistics_unfold (s : Session) :
  (get_statistics s).1 =
  match fails_next (faults s), fails_next (tail (faults s)) with
  | Some msg, _ | None, Some msg =>
      Raise (HTTPException 500 ("Error fetching statistics: " +:+ msg))
  | None, None =>
      Return {| conceptCount := VInt (Z.of_nat (length (concepts (graph s))));
                relationshipCount := VInt (Z.of_nat (length (rels (graph s)))) |}
  end.
Proof.
  unfold get_statistics, try_except, mbind, M_bind.
  rewrite (session_run_known _ _ _ _ parse_concept_count_query).
  destruct s as [g fs iss]. cbn [faults graph issued cypher_exec].
  destruct fs as [|[msg|] fs]; cbn [fails_next tail]; [|done|].
  - rewrite single_count_row.
    rewrite (session_run_known _ _ _ _ parse_relationship_count_query).
    cbn [faults graph issued cypher_exec]. by rewrite single_count_row.
  - rewrite single_count_row.
    rewrite (session_run_known _ _ _ _ parse_relationship_count_query).
    cbn [faults graph issued cypher_exec].
    destruct fs as [|[msg|] fs]; cbn [fails_next tail]; [|done|];
      by rewrite single_count_row.
Qed.

Lemma concept_ids_NoDup (g : Graph) : NoDup (node_id <$> (node_view_of <$> concepts g)).
Proof.
  rewrite <-list_fmap_compose.
  change (node_id ∘ node_view_of) with ((pretty : Z → string) ∘ (fst : Z * node → Z)).
  rewrite list_fmap_compose. apply (NoDup_fmap_2 _).
  unfold concepts.
  apply (sublist_NoDup _ (map_to_list (nodes g)).*1); [apply NoDup_fst_map_to_list|].
  apply fmap_sublist, sublist_filter.
Qed.

(** C9.  On one store state, when both calls succeed, the
    [conceptCount] of [getStatistics] is the number of distinct ids
    in the node list of [getGraph]. *)
Theorem concept_count_matches_nodes (s1 s2 : Session) (st : Statistics) (gd : GraphData) :
  graph s1 = graph s2 →
  (serve get_statistics s1).1 = OK st →
  (serve get_graph_data s2).1 = OK gd →
  conceptCount st =
    VInt (Z.of_nat (size (list_to_set (node_id <$> gd_nodes gd) : gset string))).
Proof.
  intros Hg Hst Hgd.
  destruct (get_graph_all_or_nothing s2) as [[d Hd]|Hfull]; [congruence|].
  rewrite Hfull in Hgd. injection Hgd as <-. simpl.
  rewrite size_list_to_set by apply concept_ids_NoDup.
  rewrite !length_fmap.
  unfold serve in Hst. destruct (get_statistics s1) as [r s'] eqn:E.
  pose proof (get_statistics_unfold s1) as Hr. rewrite E in Hr. simpl in Hr, Hst.
  subst r.
  destruct (fails_next (faults s1)); [done|].
  destruct (fails_next (tail (faults s1))); [done|].
  simpl in Hst. injection Hst as <-. simpl. by rewrite Hg.
Qed.

Lemma search_concepts_unfold (q : string) (s : Session) :
  (search_concepts q s).1 =
  match fails_next (faults s) with
  | Some msg => Raise (HTTPException 500 ("Error searching concepts: " +:+ msg))
  | None =>
      Return (node_view_of <$>
                take 10 (filter (λ p, name_contains q (name p.2)) (concepts (graph s))))
  end.
Proof.
  unfold search_concepts, try_except, mbind, M_bind.
  rewrite (session_run_known _ _ _ _ parse_search_query).
  destruct s as [g fs iss]. cbn [faults graph issued cypher_exec].
  rewrite lookup_singleton_eq, <-fmap_take.
  destruct fs as [|[msg|] fs]; cbn [fails_next tail]; [|done|];
    by rewrite (for_each_rows _ _ node_view_of).
Qed.

(** C4.  [searchConcepts] with the empty query is refused as an
    invalid argument (422) before the handler runs.  With a non-empty
    query, an answer that carries results carries at most ten, and the
    name of each one is a string that holds the query; the only other
    answer is the 500 of a store failure. *)
Theorem search_concepts_bounded_and_matching (q : string) (s : Session) :
  (search_endpoint "" s).1 = Unprocessable ∧
  (q ≠ "" →
   match (search_endpoint q s).1 with
   | OK results =>
       (length results ≤ 10)%nat ∧
       Forall (λ r, ∃ nm, node_name r = VStr nm ∧ contains nm q) results
   | Error st _ => st = 500 ∧ is_Some (fails_next (faults s))
   | Unprocessable => False
   end).
Proof.
  split; [done|]. intros Hq. unfold search_endpoint.
  destruct q as [|c q]; [done|]. cbn [String.length Nat.ltb Nat.leb].
  unfold serve. destruct (search_concepts (String c q) s) as [r s'] eqn:E.
  pose proof (search_concepts_unfold (String c q) s) as Hr.
  rewrite E in Hr. simpl in Hr. subst r. simpl.
  destruct (fails_next (faults s)) as [msg|]; simpl; [by eauto|].
  split.
  - rewrite length_fmap, length_take. lia.
  - apply Forall_fmap, Forall_forall. intros [i nd] Hin.
    apply elem_of_take in Hin as (k & Hin & _).
    apply list_elem_of_lookup_2, list_elem_of_filter in Hin as [Hnm _].
    simpl in *. unfold name_contains in Hnm.
    destruct (name nd) as [| |nm]; try done.
    exists nm. split; [done|]. by apply is_substring_contains, Is_true_true.
Qed.

(** C10.  When [int] refuses the source or the target of a
    [createRelationship] request, the answer is a 500 and the session
    is as it was before the call: no statement has been sent to the
    store, so no edge has been created. *)
Theorem create_relationship_bad_id (relationship : RelationshipCreate.t) (s : Session) :
  interp_int (RelationshipCreate.source relationship) = None ∨
  interp_int (RelationshipCreate.target relationship) = None →
  ∃ d, serve (create_relationship relationship) s = (Error 500 d, s).
Proof.
  intros Hbad. unfold serve, create_relationship, try_except, mbind, M_bind,
    int_or_raise.
  destruct (interp_int (RelationshipCreate.source relationship)) as [a|] eqn:Ea;
    simpl; [|by eauto].
  destruct Hbad as [|Hb]; [done|]. rewrite Hb. simpl. by eauto.
Qed.

Lemma record_get_state (r : record) (key : string) (s : Session) :
  (record_get r key s).2 = s.
Proof. unfold record_get. by repeat case_match. Qed.

Lemma link_of_record_state (r : record) (s : Session) :
  (link_of_record r s).2 = s.
Proof.
  unfold link_of_record, mbind, M_bind.
  destruct (record_get r "source" s) as [[v1|e1] s1] eqn:E1;
    pose proof (record_get_state r "source" s) as H1; rewrite E1 in H1;
    simpl in H1; subst s1; [|done].
  destruct (record_get r "target" s) as [[v2|e2] s2] eqn:E2;
    pose proof (record_get_state r "target" s) as H2; rewrite E2 in H2;
    simpl in H2; subst s2; [|done].
  destruct (record_get r "type" s) as [[v3|e3] s3] eqn:E3;
    pose proof (record_get_state r "type" s) as H3; rewrite E3 in H3;
    simpl in H3; subst s3; done.
Qed.

Lemma py_format_create (ty : string) :
  py_format CREATE_TEMPLATE ty = CREATE_HEAD +:+ ty +:+ CREATE_TAIL.
Proof. reflexivity. Qed.

Lemma strip_prefix_app (p x : string) : strip_prefix p (p +:+ x) = Some x.
Proof.
  induction p as [|c p IH]; [by destruct x|].
  rewrite app_cons_s. simpl. by rewrite Ascii.eqb_refl.
Qed.

Lemma read_quoted_plain (ty rest : string) :
  has_backquote ty = false →
  read_quoted (ty +:+ String "`"%char (String "]"%char rest))
  = Some (ty, String "]"%char rest).
Proof.
  induction ty as [|c ty IH]; [done|].
  simpl. intros [Hc Hty]%orb_false_iff. rewrite (IH Hty).
  destruct c as [[] [] [] [] [] [] [] []]; done.
Qed.

Lemma has_char_plain_type (ty : string) :
  plain_type ty = true → has_backquote ty = false ∧ has_char "\"%char ty = false.
Proof.
  unfold plain_type. intros [Hq Hs]%andb_true_iff.
  by apply negb_true_iff in Hq, Hs.
Qed.

(** A type without backquote and backslash stays inside the backquoted
    name: the store reads the statement as the creation of an edge of
    that type. *)
Lemma create_statement_parses (ty : string) :
  plain_type ty = true →
  cypher_parse (py_format CREATE_TEMPLATE ty) = Some (QCreate ty).
Proof.
  intros [Hty Hbs]%has_char_plain_type. rewrite py_format_create. unfold cypher_parse.
  replace (String.eqb (CREATE_HEAD +:+ ty +:+ CREATE_TAIL) NODES_QUERY)
    with false by (by vm_compute).
  replace (String.eqb (CREATE_HEAD +:+ ty +:+ CREATE_TAIL) LINKS_QUERY)
    with false by (by vm_compute).
  replace (String.eqb (CREATE_HEAD +:+ ty +:+ CREATE_TAIL) SEARCH_QUERY)
    with false by (by vm_compute).
  replace (String.eqb (CREATE_HEAD +:+ ty +:+ CREATE_TAIL) CONCEPT_COUNT_QUERY)
    with false by (by vm_compute).
  replace (String.eqb (CREATE_HEAD +:+ ty +:+ CREATE_TAIL) RELATIONSHIP_COUNT_QUERY)
    with false by (by vm_compute).
  unfold parse_create. rewrite strip_prefix_app.
  unfold CREATE_TAIL at 1. rewrite read_quoted_plain by done.
  rewrite Hbs. done.
Qed.

(** The same for every request: when [int] reads both ids, the type
    is a plain one and a valid token, the store is up and one of the
    two ids is not the id of a Concept node, the 404 raised by the
    handler reaches the client as a 500, and the graph is as it was. *)
Lemma create_relationship_missing_endpoint
    (relationship : RelationshipCreate.t) (s : Session) (a b : Z) :
  interp_int (RelationshipCreate.source relationship) = Some a →
  interp_int (RelationshipCreate.target relationship) = Some b →
  plain_type (RelationshipCreate.type relationship) = true →
  valid_token (RelationshipCreate.type relationship) = true →
  fails_next (faults s) = None →
  concept_at (graph s) a && concept_at (graph s) b = false →
  serve (create_relationship relationship) s =
  (Error 500 ("Error creating relationship: "
              +:+ http_exception_str 404 "Concepts not found"),
   {| graph := graph s; faults := tail (faults s);
      issued := issued s ++
        [(py_format CREATE_TEMPLATE (RelationshipCreate.type relationship),
          {[ "source" := VInt a; "target" := VInt b ]})] |}).
Proof.
  intros Ha Hb Hty Hok Hup Hmiss.
  unfold serve, create_relationship, try_except, mbind, M_bind, int_or_raise.
  rewrite Ha, Hb. cbn [mret M_ret].
  rewrite (session_run_known _ _ _ _ (create_statement_parses _ Hty)).
  cbn [cypher_exec].
  rewrite lookup_insert_eq, lookup_insert_ne, lookup_singleton_eq by done.
  rewrite Hok, Hmiss. simpl.
  destruct (faults s) as [|[msg|] fs]; [done|done|done].
Qed.

(** C1, on the program.  The target of the request is no node of the
    graph: the store returns no row, the handler raises its 404 inside
    its own [try], the [except Exception] clause of the same handler
    catches it, and the client is answered with a 500.  The graph is
    unchanged and one statement was sent. *)
Theorem create_relationship_missing_concept_is_500 :
  serve (create_relationship missing_target_request) small_session =
  (Error 500 ("Error creating relationship: "
              +:+ http_exception_str 404 "Concepts not found"),
   {| graph := small_graph; faults := [];
      issued := [(py_format CREATE_TEMPLATE "RELATED_TO",
                  {[ "source" := VInt 3; "target" := VInt 8 ]})] |}).
Proof.
  unfold serve, create_relationship, try_except, mbind, M_bind, session_run.
  rewrite create_statement_parses by done. done.
Qed.

(** C2, on the program.  The type of the request is put between the
    backquotes as it is.  For the crafted type the statement sent holds
    the type unchanged; read by the store, the backquoted name ends
    after [R], the clauses of the request follow it, and the statement
    is no longer the one of the template. *)
Theorem create_relationship_splices_type :
  let stmt := CREATE_HEAD +:+ crafted_type +:+ CREATE_TAIL in
  issued (create_relationship crafted_request small_session).2 =
    [(stmt, {[ "source" := VInt 3; "target" := VInt 7 ]})] ∧
  (strip_prefix CREATE_HEAD stmt ≫= read_quoted) =
    Some ("R", "]->(b) DETACH DELETE a //" +:+ CREATE_TAIL) ∧
  cypher_parse stmt = None.
Proof.
  split; [|by vm_compute].
  unfold create_relationship, try_except, mbind, M_bind, session_run. simpl.
  replace (cypher_parse (py_format CREATE_TEMPLATE crafted_type))
    with (@None query) by (by vm_compute).
  destruct (cypher_other _ _ _) as [[rows|e] g']; [|done].
  destruct rows as [|r rows]; [done|]. simpl.
  pose proof (link_of_record_state r
    {| graph := g'; faults := [];
       issued := [(py_format CREATE_TEMPLATE crafted_type,
                   {[ "source" := VInt 3; "target" := VInt 7 ]})] |}) as Hst.
  destruct (link_of_record r _) as [[v|e] s']; simpl in *; by subst s'.
Qed.

End StoreProperties.

(** The search for "hys" on the small graph. *)
Lemma search_concepts_on_small_graph :
  match (search_endpoint (H := script_host) "hys" small_session).1 with
  | OK results =>
      (length results ≤ 10)%nat ∧
      Forall (λ r, ∃ nm, node_name r = VStr nm ∧ contains nm "hys") results
  | Error st _ => st = 500 ∧ is_Some (fails_next (faults small_session))
  | Unprocessable => False
  end.
Proof.
  apply (proj2 (search_concepts_bounded_and_matching (H := script_host)
                  "hys" small_session)).
  done.
Defined.

(** The ids in the answer of [getGraph] on the small graph. *)
Lemma graph_ids_on_small_graph :
  Forall (λ n, ∃ i nd, nodes small_graph !! i = Some nd ∧ is_concept nd ∧
                       node_id n = pretty i ∧ py_int (node_id n) = Some i)
         (gd_nodes small_graph_data) ∧
  Forall (λ l, ∃ r, r ∈ rels small_graph ∧
                    link_source l = pretty (rel_source r) ∧
                    link_target l = pretty (rel_target r) ∧
                    py_int (link_source l) = Some (rel_source r) ∧
                    py_int (link_target l) = Some (rel_target r))
         (gd_links small_graph_data).
Proof.
  apply (graph_ids_are_decimal_strings (H := script_host) small_session small_graph_data).
  vm_compute. reflexivity.
Defined.

(** The count of concepts and the node list on the small graph. *)
Lemma concept_count_on_small_graph :
  conceptCount small_statistics =
    VInt (Z.of_nat (size (list_to_set (node_id <$> gd_nodes small_graph_data)
                            : gset string))).
Proof.
  apply (concept_count_matches_nodes (H := script_host)
           small_session small_session small_statistics small_graph_data).
  - reflexivity.
  - vm_compute. reflexivity.
  - vm_compute. reflexivity.
Defined.

(** A request whose source is "abc" on the small graph. *)
Lemma create_relationship_bad_id_on_small_graph :
  ∃ d, serve (create_relationship (H := script_host) bad_source_request) small_session
       = (Error 500 d, small_session).
Proof.
  apply (create_relationship_bad_id (H := script_host) bad_source_request small_session).
  left. reflexivity.
Defined.

(** ** The specification's examples, run *)

(** [createRelationship("3","7","RELATED_TO")] when nodes 3 and 7
    exist: the edge is made and its view returned. *)
Example create_relationship_between_concepts :
  (serve (create_relationship (H := script_host)
            {| RelationshipCreate.source := "3"; RelationshipCreate.target := "7";
               RelationshipCreate.type := "RELATED_TO" |}) small_session).1 =
  OK {| link_source := "3"; link_target := "7"; link_type := VStr "RELATED_TO" |}.
Proof. vm_compute. reflexivity. Qed.

(** Start then stop of the builder, both answered with success. *)
Example start_then_stop_builder :
  let '(r1, h1) := serve (start_builder (H := script_host) physics_params) fresh_host in
  let '(r2, h2) := serve (stop_builder (H := script_host)) h1 in
  status_of r1 = 200 ∧ status_of r2 = 200 ∧ builder_running (os h2) = false.
Proof. vm_compute. done. Qed.

(** The node query answered and the edge query failed: the client
    gets the error alone. *)
Example get_graph_second_query_fails :
  (serve (get_graph_data (H := script_host))
     {| graph := small_graph; faults := [None; Some "connection lost"]; issued := [] |}).1 =
  Error 500 "Error fetching graph data: connection lost".
Proof. vm_compute. reflexivity. Qed.

(** A stop script that exits with status 1: its standard error is in
    the detail. *)
Example stop_enricher_failure_detail :
  (serve (stop_enricher (H := fixed_outcome_host (Exited 1 "" "no such process")))
     (idle_host (Exited 1 "" "no such process"))).1 =
  Error 500 "Error stopping enricher: 500: Command failed: no such process".
Proof. vm_compute. reflexivity. Qed.

(** A seed the host cannot put on a command line: no process is
    started, and the log of started commands stays empty. *)
Example start_builder_not_spawned :
  serve (start_builder (H := fixed_outcome_host (NotSpawned "embedded null byte"))
           physics_params) (idle_host (NotSpawned "embedded null byte")) =
  (Error 500 "Error starting builder: embedded null byte",
   idle_host (NotSpawned "embedded null byte")).
Proof. vm_compute. reflexivity. Qed.

(** * Further properties of the handlers *)

Section StoreRuns.
Context `{Platform}.

(** ** Whole runs: answer and session *)

(** [create_relationship] on a request whose ids [int] reads and
    whose type is a plain one and a valid token. *)
Lemma create_relationship_run (relationship : RelationshipCreate.t) (s : Session)
    (a b : Z) :
  interp_int (RelationshipCreate.source relationship) = Some a →
  interp_int (RelationshipCreate.target relationship) = Some b →
  plain_type (RelationshipCreate.type relationship) = true →
  valid_token (RelationshipCreate.type relationship) = true →
  let ty := RelationshipCreate.type relationship in
  let log := issued s ++ [(py_format CREATE_TEMPLATE ty,
                           {[ "source" := VInt a; "target" := VInt b ]})] in
  serve (create_relationship relationship) s =
  match fails_next (faults s) with
  | Some msg =>
      (Error 500 ("Error creating relationship: " +:+ msg),
       {| graph := graph s; faults := tail (faults s); issued := log |})
  | None =>
      if concept_at (graph s) a && concept_at (graph s) b then
        (OK {| link_source := pretty a; link_target := pretty b; link_type := VStr ty |},
         {| graph := {| nodes := nodes (graph s);
                        rels := rels (graph s) ++
                                [{| rel_source := a; rel_target := b; rel_type := ty |}] |};
            faults := tail (faults s); issued := log |})
      else
        (Error 500 ("Error creating relationship: "
                    +:+ http_exception_str 404 "Concepts not found"),
         {| graph := graph s; faults := tail (faults s); issued := log |})
  end.
Proof.
  intros Ha Hb Hty Hok ty log. subst ty log.
  unfold serve, create_relationship, try_except, mbind, M_bind, int_or_raise.
  rewrite Ha, Hb. cbn [mret M_ret].
  rewrite (session_run_known _ _ _ _ (create_statement_parses _ Hty)).
  cbn [cypher_exec].
  rewrite lookup_insert_eq, lookup_insert_ne, lookup_singleton_eq by done.
  rewrite Hok. cbn [negb].
  destruct (faults s) as [|[msg|] fs]; cbn [fails_next tail]; [|done|];
    by destruct (concept_at (graph s) a && concept_at (graph s) b).
Qed.

(** [int] refuses the source, or reads it and refuses the target: the
    [ValueError] becomes the 500 before anything is sent. *)
Lemma create_relationship_int_refused (relationship : RelationshipCreate.t) (s : Session) :
  interp_int (RelationshipCreate.source relationship) = None ∨
  interp_int (RelationshipCreate.target relationship) = None →
  ∃ bad, serve (create_relationship relationship) s =
         (Error 500 ("Error creating relationship: " +:+ int_error_str bad), s).
Proof.
  intros Hbad. unfold serve, create_relationship, try_except, mbind, M_bind,
    int_or_raise.
  destruct (interp_int (RelationshipCreate.source relationship)) as [a|] eqn:Ea;
    simpl; [|by eauto].
  destruct Hbad as [|Hb]; [done|]. rewrite Hb. simpl. by eauto.
Qed.

(** The digits [str] prints are ASCII text. *)
Lemma pretty_N_go_ascii (x : N) (s : string) :
  is_ascii s = true → is_ascii (pretty_N_go x s) = true.
Proof.
  revert s. induction (N.lt_wf_0 x) as [x _ IH]; intros s Hs.
  assert (x = 0 ∨ 0 < x)%N as [->|Hx] by lia; [done|].
  rewrite pretty_N_go_step by done. apply IH; [by apply N.div_lt|].
  simpl. rewrite Hs. unfold pretty_N_char. by repeat case_match.
Qed.

Lemma pretty_ascii (z : Z) : is_ascii (pretty z) = true.
Proof.
  destruct z as [|p|p]; [done|by apply pretty_N_go_ascii|].
  change (pretty (Z.neg p)) with (String "-"%char (pretty_N_go (N.pos p) "")).
  simpl. by apply pretty_N_go_ascii.
Qed.

(** [int] reads back a numeral that [str] printed, when its digits are
    within the interpreter's limit. *)
Lemma interp_int_pretty (z : Z) :
  digits_allowed (pretty z) = true → interp_int (pretty z) = Some z.
Proof.
  intros Hd. unfold interp_int. by rewrite pretty_ascii, Hd, py_int_pretty.
Qed.

Lemma get_graph_data_run (s : Session) :
  get_graph_data s =
  match fails_next (faults s), fails_next (tail (faults s)) with
  | Some msg, _ =>
      (Raise (HTTPException 500 ("Error fetching graph data: " +:+ msg)),
       {| graph := graph s; faults := tail (faults s);
          issued := issued s ++ [(NODES_QUERY, ∅)] |})
  | None, Some msg =>
      (Raise (HTTPException 500 ("Error fetching graph data: " +:+ msg)),
       {| graph := graph s; faults := tail (tail (faults s));
          issued := (issued s ++ [(NODES_QUERY, ∅)]) ++ [(LINKS_QUERY, ∅)] |})
  | None, None =>
      (Return {| gd_nodes := node_view_of <$> concepts (graph s);
                 gd_links := link_view_of <$> concept_links (graph s) |},
       {| graph := graph s; faults := tail (tail (faults s));
          issued := (issued s ++ [(NODES_QUERY, ∅)]) ++ [(LINKS_QUERY, ∅)] |})
  end.
Proof.
  unfold get_graph_data, try_except, mbind, M_bind.
  rewrite (session_run_known _ _ _ _ parse_nodes_query).
  destruct s as [g fs iss]. cbn [faults graph issued cypher_exec].
  destruct fs as [|[msg|] fs]; cbn [fails_next tail]; [|done|].
  - rewrite (for_each_rows _ _ node_view_of) by done.
    rewrite (session_run_known _ _ _ _ parse_links_query). cbn.
    by rewrite (for_each_rows _ _ link_view_of).
  - rewrite (for_each_rows _ _ node_view_of) by done.
    rewrite (session_run_known _ _ _ _ parse_links_query).
    cbn [faults graph issued cypher_exec].
    destruct fs as [|[msg|] fs]; cbn [fails_next tail]; [|done|];
      by rewrite (for_each_rows _ _ link_view_of).
Qed.

Lemma get_statistics_run (s : Session) :
  get_statistics s =
  match fails_next (faults s), fails_next (tail (faults s)) with
  | Some msg, _ =>
      (Raise (HTTPException 500 ("Error fetching statistics: " +:+ msg)),
       {| graph := graph s; faults := tail (faults s);
          issued := issued s ++ [(CONCEPT_COUNT_QUERY, ∅)] |})
  | None, Some msg =>
      (Raise (HTTPException 500 ("Error fetching statistics: " +:+ msg)),
       {| graph := graph s; faults := tail (tail (faults s));
          issued := (issued s ++ [(CONCEPT_COUNT_QUERY, ∅)])
                    ++ [(RELATIONSHIP_COUNT_QUERY, ∅)] |})
  | None, None =>
      (Return {| conceptCount := VInt (Z.of_nat (length (concepts (graph s))));
                 relationshipCount := VInt (Z.of_nat (length (rels (graph s)))) |},
       {| graph := graph s; faults := tail (tail (faults s));
          issued := (issued s ++ [(CONCEPT_COUNT_QUERY, ∅)])
                    ++ [(RELATIONSHIP_COUNT_QUERY, ∅)] |})
  end.
Proof.
  unfold get_statistics, try_except, mbind, M_bind.
  rewrite (session_run_known _ _ _ _ parse_concept_count_query).
  destruct s as [g fs iss]. cbn [faults graph issued cypher_exec].
  destruct fs as [|[msg|] fs]; cbn [fails_next tail]; [|done|].
  - rewrite single_count_row.
    rewrite (session_run_known _ _ _ _ parse_relationship_count_query).
    cbn [faults graph issued cypher_exec]. by rewrite single_count_row.
  - rewrite single_count_row.
    rewrite (session_run_known _ _ _ _ parse_relationship_count_query).
    cbn [faults graph issued cypher_exec].
    destruct fs as [|[msg|] fs]; cbn [fails_next tail]; [|done|];
      by rewrite single_count_row.
Qed.

Lemma search_concepts_run (q : string) (s : Session) :
  search_concepts q s =
  (match fails_next (faults s) with
   | Some msg => Raise (HTTPException 500 ("Error searching concepts: " +:+ msg))
   | None =>
       Return (node_view_of <$>
                 take 10 (filter (λ p, name_contains q (name p.2)) (concepts (graph s))))
   end,
   {| graph := graph s; faults := tail (faults s);
      issued := issued s ++ [(SEARCH_QUERY, {[ "query" := VStr q ]})] |}).
Proof.
  unfold search_concepts, try_except, mbind, M_bind.
  rewrite (session_run_known _ _ _ _ parse_search_query).
  destruct s as [g fs iss]. cbn [faults graph issued cypher_exec].
  rewrite lookup_singleton_eq, <-fmap_take.
  destruct fs as [|[msg|] fs]; cbn [fails_next tail]; [|done|];
    by rewrite (for_each_rows _ _ node_view_of).
Qed.

End StoreRuns.

Section StoreExtras.
Context `{Platform}.

(** ** Creating a relationship *)

(** X1.  When [int] reads the source and the target as the ids of two
    Concept nodes, the type is a valid token name without backquote
    and backslash, and the store is up, [createRelationship] answers
    with the edge's view, whose source and target are the decimal
    numerals of the ids (not the caller's spelling of them); exactly
    one edge of that type is appended to the store's edges, the nodes
    are untouched, and the one statement sent carries the ids as
    integer parameters. *)
Theorem create_relationship_creates_edge
    (relationship : RelationshipCreate.t) (s : Session) (a b : Z) :
  interp_int (RelationshipCreate.source relationship) = Some a →
  interp_int (RelationshipCreate.target relationship) = Some b →
  plain_type (RelationshipCreate.type relationship) = true →
  valid_token (RelationshipCreate.type relationship) = true →
  fails_next (faults s) = None →
  concept_at (graph s) a = true →
  concept_at (graph s) b = true →
  serve (create_relationship relationship) s =
  (OK {| link_source := pretty a; link_target := pretty b;
         link_type := VStr (RelationshipCreate.type relationship) |},
   {| graph := {| nodes := nodes (graph s);
                  rels := rels (graph s) ++
                          [{| rel_source := a; rel_target := b;
                              rel_type := RelationshipCreate.type relationship |}] |};
      faults := tail (faults s);
      issued := issued s ++
                [(py_format CREATE_TEMPLATE (RelationshipCreate.type relationship),
                  {[ "source" := VInt a; "target" := VInt b ]})] |}).
Proof.
  intros Ha Hb Hty Hok Hup Hca Hcb.
  rewrite (create_relationship_run _ _ a b) by done.
  by rewrite Hup, Hca, Hcb.
Qed.

(** X2.  With the store up, whatever the source and the target of the
    request, a [createRelationship] call whose type is a valid token
    name without backquote and backslash never touches the nodes, and
    changes the edges only when it answers with success: then exactly
    one edge was appended, between two Concept nodes that [int] read
    from the request's ids.  Every other answer is a 500 and leaves
    the graph as it was. *)
Theorem create_relationship_graph_change
    (relationship : RelationshipCreate.t) (s : Session) :
  plain_type (RelationshipCreate.type relationship) = true →
  valid_token (RelationshipCreate.type relationship) = true →
  fails_next (faults s) = None →
  let r := (serve (create_relationship relationship) s).1 in
  let g' := graph (serve (create_relationship relationship) s).2 in
  nodes g' = nodes (graph s) ∧
  (((∃ d, r = Error 500 d) ∧ g' = graph s) ∨
   ((∃ v, r = OK v) ∧
    ∃ a b, interp_int (RelationshipCreate.source relationship) = Some a ∧
           interp_int (RelationshipCreate.target relationship) = Some b ∧
           concept_at (graph s) a = true ∧ concept_at (graph s) b = true ∧
           rels g' = rels (graph s) ++
                     [{| rel_source := a; rel_target := b;
                         rel_type := RelationshipCreate.type relationship |}])).
Proof.
  intros Hty Hok Hup r g'. subst r g'.
  destruct (interp_int (RelationshipCreate.source relationship)) as [a|] eqn:Ha.
  2: { destruct (create_relationship_int_refused relationship s) as [d Hd]; [by left|].
       rewrite Hd. simpl. split; [done|]. left. eauto. }
  destruct (interp_int (RelationshipCreate.target relationship)) as [b|] eqn:Hb.
  2: { destruct (create_relationship_int_refused relationship s) as [d Hd]; [by right|].
       rewrite Hd. simpl. split; [done|]. left. eauto. }
  rewrite (create_relationship_run _ _ a b) by done.
  rewrite Hup. simpl.
  destruct (concept_at (graph s) a) eqn:Hca; simpl.
  2: { split; [done|]. left. eauto. }
  destruct (concept_at (graph s) b) eqn:Hcb; simpl.
  2: { split; [done|]. left. eauto. }
  split; [done|]. right. split; [by eauto|]. by exists a, b.
Qed.

(** X3.  The edge is created, not merged: the same successful request
    made twice leaves two equal edges in the store. *)
Theorem create_relationship_twice
    (relationship : RelationshipCreate.t) (s : Session) (a b : Z) :
  interp_int (RelationshipCreate.source relationship) = Some a →
  interp_int (RelationshipCreate.target relationship) = Some b →
  plain_type (RelationshipCreate.type relationship) = true →
  valid_token (RelationshipCreate.type relationship) = true →
  faults s = [] →
  concept_at (graph s) a = true →
  concept_at (graph s) b = true →
  let r := {| rel_source := a; rel_target := b;
              rel_type := RelationshipCreate.type relationship |} in
  let s1 := (serve (create_relationship relationship) s).2 in
  let s2 := (serve (create_relationship relationship) s1).2 in
  status_of (serve (create_relationship relationship) s).1 = 200 ∧
  status_of (serve (create_relationship relationship) s1).1 = 200 ∧
  rels (graph s2) = rels (graph s) ++ [r; r].
Proof.
  intros Ha Hb Hty Hok Hup Hca Hcb r s1 s2. subst r s1 s2.
  rewrite (create_relationship_run _ s a b) by done.
  rewrite Hup, Hca, Hcb. simpl.
  rewrite (create_relationship_run _ _ a b) by done.
  simpl. unfold concept_at in *. simpl. rewrite Hca, Hcb. simpl.
  by rewrite <-(assoc_L (++)).
Qed.

Lemma concept_at_elem (g : Graph) (i : Z) :
  concept_at g i = true ↔ ∃ nd, (i, nd) ∈ concepts g.
Proof.
  unfold concept_at. split.
  - destruct (nodes g !! i) as [nd|] eqn:E; [|done].
    intros Hc%bool_decide_eq_true. exists nd. by apply elem_of_concepts.
  - intros [nd [Hi Hc]%elem_of_concepts]. simpl in *. rewrite Hi.
    by apply bool_decide_eq_true.
Qed.


(** X5.  After a successful [createRelationship], with the store up,
    [getStatistics] reports one relationship more and the same number
    of concepts. *)
Theorem create_then_statistics
    (relationship : RelationshipCreate.t) (s : Session) (a b : Z) :
  interp_int (RelationshipCreate.source relationship) = Some a →
  interp_int (RelationshipCreate.target relationship) = Some b →
  plain_type (RelationshipCreate.type relationship) = true →
  valid_token (RelationshipCreate.type relationship) = true →
  faults s = [] →
  concept_at (graph s) a = true →
  concept_at (graph s) b = true →
  (serve get_statistics s).1 =
    OK {| conceptCount := VInt (Z.of_nat (length (concepts (graph s))));
          relationshipCount := VInt (Z.of_nat (length (rels (graph s)))) |} ∧
  (serve get_statistics (serve (create_relationship relationship) s).2).1 =
    OK {| conceptCount := VInt (Z.of_nat (length (concepts (graph s))));
          relationshipCount := VInt (Z.of_nat (length (rels (graph s))) + 1) |}.
Proof.
  intros Ha Hb Hty Hok Hup Hca Hcb.
  rewrite (create_relationship_run _ s a b) by done.
  rewrite Hup, Hca, Hcb. simpl.
  unfold serve. rewrite !get_statistics_run, Hup. simpl. split; [done|].
  do 3 f_equal. rewrite length_app. simpl. lia.
Qed.

(** X6.  The ids [getGraph] hands out are accepted by
    [createRelationship]: with the store up, a request whose source
    and target are the ids of two nodes of a [getGraph] answer, both
    with no more digits than the interpreter reads, and whose type is
    a valid token name without backquote and backslash, succeeds and
    answers with those same ids. *)
Theorem graph_ids_accepted_by_create
    (s s' : Session) (gd : GraphData) (n m : node_view) (ty : string) :
  (serve get_graph_data s).1 = OK gd →
  n ∈ gd_nodes gd → m ∈ gd_nodes gd →
  digits_allowed (node_id n) = true → digits_allowed (node_id m) = true →
  graph s' = graph s → faults s' = [] →
  plain_type ty = true → valid_token ty = true →
  (serve (create_relationship
            {| RelationshipCreate.source := node_id n;
               RelationshipCreate.target := node_id m;
               RelationshipCreate.type := ty |}) s').1 =
  OK {| link_source := node_id n; link_target := node_id m; link_type := VStr ty |}.
Proof.
  intros Hgd Hn Hm Hdn Hdm Hg Hup Hty Hok.
  unfold serve in Hgd. rewrite get_graph_data_run in Hgd.
  destruct (fails_next (faults s)); [done|].
  destruct (fails_next (tail (faults s))); [done|].
  simpl in Hgd. injection Hgd as <-. simpl in Hn, Hm.
  apply list_elem_of_fmap in Hn as ([i nd] & -> & Hn).
  apply list_elem_of_fmap in Hm as ([j md] & -> & Hm).
  simpl in *.
  rewrite (create_relationship_run _ s' i j)
    by (simpl; by rewrite ?interp_int_pretty).
  rewrite Hup, Hg. simpl.
  assert (concept_at (graph s) i = true) as -> by (apply concept_at_elem; eauto).
  assert (concept_at (graph s) j = true) as -> by (apply concept_at_elem; eauto).
  done.
Qed.

(** ** Reading *)

(** X7.  The three read handlers never change the graph, whether they
    answer with a body or with an error. *)
Theorem read_handlers_leave_graph (q : string) (s : Session) :
  graph (serve get_graph_data s).2 = graph s ∧
  graph (serve (search_concepts q) s).2 = graph s ∧
  graph (serve get_statistics s).2 = graph s.
Proof.
  unfold serve.
  rewrite get_graph_data_run, search_concepts_run, get_statistics_run.
  destruct (fails_next (faults s)); [done|].
  by destruct (fails_next (tail (faults s))).
Qed.

(** X8.  [searchConcepts] sends one statement, always the same text:
    the caller's query travels as the bound parameter [$query] and
    never becomes part of the statement, whatever characters it
    holds. *)
Theorem search_sends_query_as_parameter (q : string) (s : Session) :
  issued (serve (search_concepts q) s).2 =
    issued s ++ [(SEARCH_QUERY, {[ "query" := VStr q ]})].
Proof. unfold serve. by rewrite search_concepts_run. Qed.

(** X9.  A successful search returns as many results as there are
    Concept nodes whose name holds the query, up to ten; when at most
    ten match, every Concept node whose name holds the query is among
    the results. *)
Theorem search_returns_all_matches_up_to_ten
    (q : string) (s : Session) (results : list node_view) :
  (serve (search_concepts q) s).1 = OK results →
  let matches := filter (λ p, name_contains q (name p.2)) (concepts (graph s)) in
  length results = (length matches `min` 10)%nat ∧
  ((length matches ≤ 10)%nat →
   ∀ i nd nm, nodes (graph s) !! i = Some nd → is_concept nd →
              name nd = VStr nm → contains nm q →
              {| node_id := pretty i; node_name := VStr nm |} ∈ results).
Proof.
  intros Hok matches. subst matches.
  unfold serve in Hok. rewrite search_concepts_run in Hok. simpl in Hok.
  destruct (fails_next (faults s)); [done|]. simpl in Hok. injection Hok as <-.
  split.
  - rewrite length_fmap, length_take. lia.
  - intros Hlen i nd nm Hi Hc Hnm Hq.
    rewrite take_ge by done.
    apply list_elem_of_fmap. exists (i, nd). split.
    + unfold node_view_of. simpl. by rewrite Hnm.
    + apply list_elem_of_filter. split.
      * simpl. rewrite Hnm. simpl. by apply Is_true_true, is_substring_contains.
      * by apply elem_of_concepts.
Qed.

(** X10.  On one store state, every result of a successful search is
    one of the nodes of a successful [getGraph], and no two results
    have the same id. *)
Theorem search_results_among_graph_nodes
    (q : string) (s1 s2 : Session) (results : list node_view) (gd : GraphData) :
  graph s1 = graph s2 →
  (serve (search_concepts q) s1).1 = OK results →
  (serve get_graph_data s2).1 = OK gd →
  results ⊆ gd_nodes gd ∧ NoDup (node_id <$> results).
Proof.
  intros Hg Hres Hgd.
  unfold serve in Hres, Hgd.
  rewrite search_concepts_run in Hres. rewrite get_graph_data_run in Hgd.
  simpl in Hres.
  destruct (fails_next (faults s1)); [done|]. simpl in Hres. injection Hres as <-.
  destruct (fails_next (faults s2)); [done|].
  destruct (fails_next (tail (faults s2))); [done|].
  simpl in Hgd. injection Hgd as <-. simpl. rewrite Hg. split.
  - intros v Hv. apply list_elem_of_fmap in Hv as (p & -> & Hp).
    apply list_elem_of_fmap_2.
    apply elem_of_take in Hp as (k & Hp%list_elem_of_lookup_2 & _).
    by apply list_elem_of_filter in Hp as [_ Hp].
  - eapply sublist_NoDup; [apply (concept_ids_NoDup (graph s2))|].
    apply fmap_sublist, fmap_sublist.
    etrans; [apply sublist_take|apply sublist_filter].
Qed.

(** X11.  In a successful [getGraph] answer no two nodes have the same
    id, and the source and the target of every link are ids of nodes
    of the same answer. *)
Theorem graph_links_reference_nodes (s : Session) (gd : GraphData) :
  (serve get_graph_data s).1 = OK gd →
  NoDup (node_id <$> gd_nodes gd) ∧
  Forall (λ l, link_source l ∈ node_id <$> gd_nodes gd ∧
               link_target l ∈ node_id <$> gd_nodes gd) (gd_links gd).
Proof.
  intros Hgd. unfold serve in Hgd. rewrite get_graph_data_run in Hgd.
  destruct (fails_next (faults s)); [done|].
  destruct (fails_next (tail (faults s))); [done|].
  simpl in Hgd. injection Hgd as <-. simpl. split; [apply concept_ids_NoDup|].
  apply Forall_fmap, Forall_forall. intros r Hr.
  apply list_elem_of_filter in Hr as [Hends _].
  apply andb_prop_elim in Hends as [Ha Hb].
  apply Is_true_true, concept_at_elem in Ha as [na Ha].
  apply Is_true_true, concept_at_elem in Hb as [nb Hb].
  split; simpl.
  - apply list_elem_of_fmap. exists (node_view_of (rel_source r, na)).
    split; [done|]. by apply list_elem_of_fmap_2.
  - apply list_elem_of_fmap. exists (node_view_of (rel_target r, nb)).
    split; [done|]. by apply list_elem_of_fmap_2.
Qed.

(** X12.  On one store state, [getGraph] never lists more links than
    [getStatistics] counts relationships: the count covers every edge
    of the store, the links only those between two Concept nodes. *)
Theorem links_at_most_relationship_count
    (s1 s2 : Session) (st : Statistics) (gd : GraphData) :
  graph s1 = graph s2 →
  (serve get_statistics s1).1 = OK st →
  (serve get_graph_data s2).1 = OK gd →
  ∃ n, relationshipCount st = VInt n ∧ Z.of_nat (length (gd_links gd)) ≤ n.
Proof.
  intros Hg Hst Hgd. unfold serve in Hst, Hgd.
  rewrite get_statistics_run in Hst. rewrite get_graph_data_run in Hgd.
  destruct (fails_next (faults s1)); [done|].
  destruct (fails_next (tail (faults s1))); [done|].
  destruct (fails_next (faults s2)); [done|].
  destruct (fails_next (tail (faults s2))); [done|].
  simpl in Hst, Hgd. injection Hst as <-. injection Hgd as <-. simpl.
  eexists. split; [done|]. rewrite length_fmap, Hg.
  apply inj_le, length_filter.
Qed.

(** X13.  A store failure on the first statement ends the read at
    once: the answer is the 500 with the handler's prefix and the
    store's message, and the second statement is never sent. *)
Theorem read_stops_at_first_failure (s : Session) (msg : string) :
  fails_next (faults s) = Some msg →
  serve get_graph_data s =
    (Error 500 ("Error fetching graph data: " +:+ msg),
     {| graph := graph s; faults := tail (faults s);
        issued := issued s ++ [(NODES_QUERY, ∅)] |}) ∧
  serve get_statistics s =
    (Error 500 ("Error fetching statistics: " +:+ msg),
     {| graph := graph s; faults := tail (faults s);
        issued := issued s ++ [(CONCEPT_COUNT_QUERY, ∅)] |}).
Proof.
  intros Hf. unfold serve. rewrite get_graph_data_run, get_statistics_run.
  by rewrite Hf.
Qed.

End StoreExtras.

(** ** The further properties on the small graph *)

Lemma create_relationship_creates_edge_on_small_graph :
  serve (create_relationship (H := script_host) spelled_request) small_session =
  (OK cites_view,
   {| graph := {| nodes := nodes small_graph; rels := rels small_graph ++ [cites_edge] |};
      faults := [];
      issued := [(py_format CREATE_TEMPLATE "CITES",
                  {[ "source" := VInt 7; "target" := VInt 3 ]})] |}).
Proof.
  exact (create_relationship_creates_edge (H := script_host)
           spelled_request small_session 7 3
           eq_refl eq_refl eq_refl eq_refl eq_refl eq_refl eq_refl).
Defined.

Lemma create_relationship_graph_change_on_small_graph :
  let r := (serve (create_relationship (H := script_host) spelled_request)
              small_session).1 in
  let g' := graph (serve (create_relationship (H := script_host) spelled_request)
                     small_session).2 in
  nodes g' = nodes small_graph ∧
  (((∃ d, r = Error 500 d) ∧ g' = small_graph) ∨
   ((∃ v, r = OK v) ∧
    ∃ a b, interp_int (H := script_host) " 7" = Some a ∧
           interp_int (H := script_host) "+3" = Some b ∧
           concept_at small_graph a = true ∧ concept_at small_graph b = true ∧
           rels g' = rels small_graph ++
                     [{| rel_source := a; rel_target := b; rel_type := "CITES" |}])).
Proof.
  exact (create_relationship_graph_change (H := script_host)
           spelled_request small_session eq_refl eq_refl eq_refl).
Defined.

Lemma create_relationship_twice_on_small_graph :
  let s1 := (serve (create_relationship (H := script_host) spelled_request)
               small_session).2 in
  let s2 := (serve (create_relationship (H := script_host) spelled_request) s1).2 in
  status_of (serve (create_relationship (H := script_host) spelled_request)
               small_session).1 = 200 ∧
  status_of (serve (create_relationship (H := script_host) spelled_request) s1).1 = 200 ∧
  rels (graph s2) = rels small_graph ++ [cites_edge; cites_edge].
Proof.
  exact (create_relationship_twice (H := script_host)
           spelled_request small_session 7 3
           eq_refl eq_refl eq_refl eq_refl eq_refl eq_refl eq_refl).
Defined.


Lemma create_then_statistics_on_small_graph :
  (serve (get_statistics (H := script_host)) small_session).1 =
    OK {| conceptCount := VInt (Z.of_nat (length (concepts small_graph)));
          relationshipCount := VInt (Z.of_nat (length (rels small_graph))) |} ∧
  (serve (get_statistics (H := script_host))
     (serve (create_relationship (H := script_host) spelled_request) small_session).2).1 =
    OK {| conceptCount := VInt (Z.of_nat (length (concepts small_graph)));
          relationshipCount := VInt (Z.of_nat (length (rels small_graph)) + 1) |}.
Proof.
  exact (create_then_statistics (H := script_host)
           spelled_request small_session 7 3
           eq_refl eq_refl eq_refl eq_refl eq_refl eq_refl eq_refl).
Defined.

Lemma graph_ids_accepted_by_create_on_small_graph :
  (serve (create_relationship (H := script_host)
            {| RelationshipCreate.source := "7";
               RelationshipCreate.target := "3";
               RelationshipCreate.type := "CITES" |}) small_session).1 =
  OK {| link_source := "7"; link_target := "3"; link_type := VStr "CITES" |}.
Proof.
  apply (graph_ids_accepted_by_create (H := script_host)
           small_session small_session small_graph_data
           {| node_id := "7"; node_name := VStr "Metaphysics" |}
           {| node_id := "3"; node_name := VStr "Physics" |} "CITES").
  - vm_compute. reflexivity.
  - apply list_elem_of_here.
  - apply list_elem_of_further, list_elem_of_here.
  - reflexivity.
  - reflexivity.
  - reflexivity.
  - reflexivity.
  - reflexivity.
  - reflexivity.
Defined.

Lemma search_returns_all_matches_on_small_graph :
  let matches := filter (λ p, name_contains "hys" (name p.2)) (concepts small_graph) in
  length (gd_nodes small_graph_data) = (length matches `min` 10)%nat ∧
  ((length matches ≤ 10)%nat →
   ∀ i nd nm, nodes small_graph !! i = Some nd → is_concept nd →
              name nd = VStr nm → contains nm "hys" →
              {| node_id := pretty i; node_name := VStr nm |} ∈ gd_nodes small_graph_data).
Proof.
  apply (search_returns_all_matches_up_to_ten (H := script_host)
           "hys" small_session (gd_nodes small_graph_data)).
  vm_compute. reflexivity.
Defined.

Lemma search_results_among_graph_nodes_on_small_graph :
  [ {| node_id := "3"; node_name := VStr "Physics" |} ] ⊆ gd_nodes small_graph_data ∧
  NoDup (node_id <$> [ {| node_id := "3"; node_name := VStr "Physics" |} ]).
Proof.
  apply (search_results_among_graph_nodes (H := script_host)
           "Phy" small_session small_session).
  - reflexivity.
  - vm_compute. reflexivity.
  - vm_compute. reflexivity.
Defined.

Lemma graph_links_reference_nodes_on_small_graph :
  NoDup (node_id <$> gd_nodes small_graph_data) ∧
  Forall (λ l, link_source l ∈ node_id <$> gd_nodes small_graph_data ∧
               link_target l ∈ node_id <$> gd_nodes small_graph_data)
         (gd_links small_graph_data).
Proof.
  apply (graph_links_reference_nodes (H := script_host) small_session).
  vm_compute. reflexivity.
Defined.

Lemma links_at_most_relationship_count_on_small_graph :
  ∃ n, relationshipCount small_statistics = VInt n ∧
       Z.of_nat (length (gd_links small_graph_data)) ≤ n.
Proof.
  apply (links_at_most_relationship_count (H := script_host)
           small_session small_session).
  - reflexivity.
  - vm_compute. reflexivity.
  - vm_compute. reflexivity.
Defined.

Lemma read_stops_at_first_failure_on_small_graph :
  serve (get_graph_data (H := script_host)) failing_session =
    (Error 500 "Error fetching graph data: connection refused",
     {| graph := small_graph; faults := [];
        issued := [(NODES_QUERY, ∅)] |}) ∧
  serve (get_statistics (H := script_host)) failing_session =
    (Error 500 "Error fetching statistics: connection refused",
     {| graph := small_graph; faults := [];
        issued := [(CONCEPT_COUNT_QUERY, ∅)] |}).
Proof.
  exact (read_stops_at_first_failure (H := script_host)
           failing_session "connection refused" eq_refl).
Defined.
